(** * The pdf-to-images handler (src/functions/pdf-to-images/app.py)

    A shallow embedding of the Lambda handler that downloads a job's PDF,
    renders every page to a PNG, uploads the images and publishes an
    [ImagesGenerated] event, followed by the properties of the
    specification proved about it.

    The handler is sequential Python that talks to S3, to EventBridge, to
    pdfium and to the local disk and that raises exceptions.  It is embedded
    as a state-and-exception monad over a [world] holding the bucket
    contents, the scratch directory, the events published so far, the
    chronological list of external calls and the log records.

    What the collaborators do is fixed as follows.
    - pdfium and PIL are functions ([runtime]): the same bytes open as the
      same pages, the same page renders at the same scale to the same image.
      pypdfium2 opens no document without pages: [PdfDocument] raises
      [PdfiumError] unless pdfium counts at least one page in what it loaded
      ([open_checked]).
    - Every call to S3 or EventBridge and every [img.save] may raise; which
      ones do, and what, is given by a plan for the invocation ([faults]).
      A call that does not raise has its effect: the object is in the bucket,
      the file on the disk, the entry on the bus.  The response of
      [put_events], which the handler does not look at, is not modelled.
    - The local disk is a finite map: [os.path.exists] reads it and
      [os.remove] of a file that exists succeeds. *)

From stdpp Require Import gmap strings list fin_maps pretty.
From Stdlib Require Import ZArith.

Set Warnings "-register-all".

(** ** Python values *)

(** The event is the JSON document Lambda deserialises ([json.loads]):
    [None], [bool], [int], [str], [list] and [dict].  Floating-point numbers
    are left out.  A decoded object holds every key once; [JObj] keeps the
    bindings in a list and looks a key up from the front. *)
Inductive json :=
| JNull
| JBool (b : bool)
| JNum (z : Z)
| JStr (s : string)
| JList (l : list json)
| JObj (kv : list (string * json)).

Fixpoint assoc (k : string) (kv : list (string * json)) : option json :=
  match kv with
  | [] => None
  | (k', v) :: kv' => if String.eqb k k' then Some v else assoc k kv'
  end.

(** The exceptions ([Exception] subclasses) that occur: the two the handler
    raises itself, the [AttributeError] of a [.get] on something that is not
    a dict, and those of the collaborators (botocore, pdfium, PIL, the OS). *)
Inductive exn :=
| ValueError (msg : string)
| AttributeError (msg : string)
| ClientError (msg : string)
| PdfiumError (msg : string)
| OSError (msg : string).

Definition type_name (v : json) : string :=
  match v with
  | JNull => "NoneType"
  | JBool _ => "bool"
  | JNum _ => "int"
  | JStr _ => "str"
  | JList _ => "list"
  | JObj _ => "dict"
  end.

(** [o.get(k, dflt)] *)
Definition dict_get (o : json) (k : string) (dflt : json) : exn + json :=
  match o with
  | JObj kv => inr (default dflt (assoc k kv))
  | _ => inl (AttributeError ("'" +:+ type_name o +:+ "' object has no attribute 'get'"))
  end.

(** [k in o] on a dict *)
Definition dict_contains (k : string) (o : json) : bool :=
  match o with
  | JObj kv => bool_decide (is_Some (assoc k kv))
  | _ => false
  end.

(** Truth value of an object, as [not x] and [if x:] test it. *)
Definition py_truthy (v : json) : bool :=
  match v with
  | JNull => false
  | JBool b => b
  | JNum z => negb (Z.eqb z 0)
  | JStr s => negb (String.eqb s "")
  | JList l => match l with [] => false | _ => true end
  | JObj kv => match kv with [] => false | _ => true end
  end.

(** Truth value of [os.environ.get(name)]: [None] and [""] are false. *)
Definition env_truthy (o : option string) : bool :=
  match o with
  | Some s => negb (String.eqb s "")
  | None => false
  end.

(** ** Collaborators *)

Definition blob := string.
Definition page := string.

(** The deterministic capabilities: pdfium opening a file's bytes as a
    sequence of pages, rendering one page at a scale to its PNG image, and
    Python's [repr] of lists and dicts (used by f-strings). *)
Record runtime := {
  pdf_open : blob → exn + list page;
  render : page → Z → exn + blob;
  py_repr : json → string
}.

(** [PdfDocument(path)] as pypdfium2 has it on top of pdfium: pdfium loads
    the bytes ([load]: the pages it finds, or its error) and the wrapper
    raises [PdfiumError] unless the page count of what was loaded is at least
    1, with a text [failure] made from pdfium's last error code.  A file in
    which pdfium finds no page is refused like one it cannot parse. *)
Definition open_checked (load : blob → exn + list page) (failure : blob → string)
    (body : blob) : exn + list page :=
  match load body with
  | inl e => inl e
  | inr [] => inl (PdfiumError (failure body))
  | inr pdf => inr pdf
  end.

(** [os.environ] *)
Record config := {
  S3_BUCKET_PDFS : option string;
  EVENT_BUS_NAME : option string
}.

(** What goes wrong during one invocation: each call that can fail raises
    the exception the plan holds for its arguments, if any. *)
Record faults := {
  f_download : string → string → option exn;
  f_save : string → option exn;
  f_upload : string → string → option exn;
  f_publish : option exn
}.

(** [str(v)], as an f-string formats a value. *)
Definition py_str (rt : runtime) (v : json) : string :=
  match v with
  | JNull => "None"
  | JBool true => "True"
  | JBool false => "False"
  | JNum z => pretty z
  | JStr s => s
  | _ => py_repr rt v
  end.

(** ** The world *)

(** The dict passed to [json.dumps] for the event's [Detail]. *)
Record event_detail := {
  jobId : json;
  pageCount : nat;
  imagePrefix : string
}.

(** One entry of [put_events(Entries=[...])]. *)
Record bus_entry := {
  Source : string;
  DetailType : string;
  Detail : event_detail;
  EventBusName : string
}.

(** External calls, in the order they are made, with their outcome. *)
Inductive io :=
| s3_download (Bucket Key Filename : string) (ok : bool)
| pdfium_open (path : string) (ok : bool)
| page_render (i : nat) (scale : Z) (ok : bool)
| img_save (path : string) (ok : bool)
| s3_upload (Filename Bucket Key : string) (ok : bool)
| os_remove (path : string)
| put_events_call (entry : bus_entry) (ok : bool).

Inductive level := INFO | WARNING | ERROR.

(** The log records, one constructor per logging call of the handler. *)
Inductive message :=
| msg_received (event : json)
| msg_s3_event
| msg_downloading (bucket key : string)
| msg_download_failed (e : exn)
| msg_converting
| msg_page_count (n : nat)
| msg_uploaded (n : nat) (prefix : string)
| msg_publishing (bus_name : string)
| msg_no_bus
| msg_error (job : option json) (e : exn).

Record world := {
  s3 : gmap (string * string) blob;
  fs : gmap string blob;
  bus : list bus_entry;
  trace : list io;
  logs : list (level * message)
}.

Definition set_s3 (f : gmap (string * string) blob → gmap (string * string) blob)
    (w : world) : world :=
  {| s3 := f (s3 w); fs := fs w; bus := bus w; trace := trace w; logs := logs w |}.
Definition set_fs (f : gmap string blob → gmap string blob) (w : world) : world :=
  {| s3 := s3 w; fs := f (fs w); bus := bus w; trace := trace w; logs := logs w |}.
Definition add_bus (e : bus_entry) (w : world) : world :=
  {| s3 := s3 w; fs := fs w; bus := bus w ++ [e]; trace := trace w; logs := logs w |}.
Definition add_io (c : io) (w : world) : world :=
  {| s3 := s3 w; fs := fs w; bus := bus w; trace := trace w ++ [c]; logs := logs w |}.
Definition add_log (l : level) (m : message) (w : world) : world :=
  {| s3 := s3 w; fs := fs w; bus := bus w; trace := trace w; logs := logs w ++ [(l, m)] |}.

(** ** The monad: state and exceptions *)

Inductive outcome (A : Type) :=
| Done (a : A)
| Raised (e : exn).
Arguments Done {A} a.
Arguments Raised {A} e.

(** The state survives an exception: what was uploaded stays uploaded. *)
Definition M (A : Type) : Type := world → outcome A * world.

Global Instance M_ret : MRet M := λ A a w, (Done a, w).
Global Instance M_bind : MBind M := λ A B k m w,
  match m w with
  | (Done a, w') => k a w'
  | (Raised e, w') => (Raised e, w')
  end.

Definition raise {A} (e : exn) : M A := λ w, (Raised e, w).

(** [try: m  except Exception as e: h e] *)
Definition try_except {A} (m : M A) (h : exn → M A) : M A := λ w,
  match m w with
  | (Done a, w') => (Done a, w')
  | (Raised e, w') => h e w'
  end.

Definition log (l : level) (m : message) : M unit := λ w, (Done (), add_log l m w).

(** ** The handler's value *)

(** The dict of the final [return]. *)
Record success := {
  ret_jobId : json;
  ret_pages : nat;
  ret_status : string
}.

(** [return] without a value gives [None]. *)
Inductive retval :=
| RNone
| RDict (r : success).

(** The two [ValueError]s the handler raises, under the names the
    specification gives them. *)
Definition InvalidTriggerPayload : exn := ValueError "jobId not found in event detail".
Definition MissingConfiguration : exn :=
  ValueError "S3_BUCKET_PDFS environment variable not set".

Section Handler.
Context (rt : runtime) (cfg : config) (fl : faults).

(** *** Primitive calls *)

(** [s3.download_file(Bucket, Key, Filename)] *)
Definition download_file (Bucket Key Filename : string) : M unit := λ w,
  match f_download fl Bucket Key with
  | Some e => (Raised e, add_io (s3_download Bucket Key Filename false) w)
  | None =>
      match s3 w !! (Bucket, Key) with
      | None => (Raised (ClientError "An error occurred (404) when calling the HeadObject operation: Not Found"),
                 add_io (s3_download Bucket Key Filename false) w)
      | Some body =>
          (Done (), add_io (s3_download Bucket Key Filename true)
                      (set_fs (insert Filename body) w))
      end
  end.

(** [pdfium.PdfDocument(path)] *)
Definition PdfDocument (path : string) : M (list page) := λ w,
  match fs w !! path with
  | None => (Raised (PdfiumError "Failed to load document (PDFium: File access error)."),
             add_io (pdfium_open path false) w)
  | Some body =>
      match pdf_open rt body with
      | inl e => (Raised e, add_io (pdfium_open path false) w)
      | inr pdf => (Done pdf, add_io (pdfium_open path true) w)
      end
  end.

(** [pdf[i].render(scale=scale).to_pil()], for the page [p] at index [i] *)
Definition render_page (i : nat) (p : page) (scale : Z) : M blob := λ w,
  match render rt p scale with
  | inl e => (Raised e, add_io (page_render i scale false) w)
  | inr img => (Done img, add_io (page_render i scale true) w)
  end.

(** [img.save(path)] *)
Definition save (img : blob) (path : string) : M unit := λ w,
  match f_save fl path with
  | Some e => (Raised e, add_io (img_save path false) w)
  | None => (Done (), add_io (img_save path true) (set_fs (insert path img) w))
  end.

(** [s3.upload_file(Filename, Bucket, Key)] *)
Definition upload_file (Filename Bucket Key : string) : M unit := λ w,
  match fs w !! Filename with
  | None => (Raised (OSError "No such file or directory"),
             add_io (s3_upload Filename Bucket Key false) w)
  | Some body =>
      match f_upload fl Bucket Key with
      | Some e => (Raised e, add_io (s3_upload Filename Bucket Key false) w)
      | None =>
          (Done (), add_io (s3_upload Filename Bucket Key true)
                      (set_s3 (insert (Bucket, Key) body) w))
      end
  end.

(** [if os.path.exists(path): os.remove(path)] *)
Definition remove_if_exists (path : string) : M unit := λ w,
  match fs w !! path with
  | Some _ => (Done (), add_io (os_remove path) (set_fs (delete path) w))
  | None => (Done (), w)
  end.

(** [events_client.put_events(Entries=[entry])] *)
Definition put_events (entry : bus_entry) : M unit := λ w,
  match f_publish fl with
  | Some e => (Raised e, add_io (put_events_call entry false) w)
  | None => (Done (), add_io (put_events_call entry true) (add_bus entry w))
  end.

(** *** Names derived from the job *)

Definition input_key (job_id : json) : string := py_str rt job_id +:+ "/original.pdf".
Definition local_pdf (job_id : json) : string :=
  "/tmp/" +:+ py_str rt job_id +:+ "_original.pdf".
Definition output_prefix (job_id : json) : string := py_str rt job_id +:+ "_pages".
(** [i] is the loop variable, counted from 0. *)
Definition local_img (job_id : json) (i : nat) : string :=
  "/tmp/" +:+ py_str rt job_id +:+ "_page_" +:+ pretty (i + 1) +:+ ".png".
Definition output_key (job_id : json) (i : nat) : string :=
  output_prefix job_id +:+ "/page_" +:+ pretty (i + 1) +:+ ".png".

(** *** The page loop *)

(** The body of [for i in range(page_count)], returning the extended
    [output_keys]. *)
Definition process_page (job_id : json) (pdf_bucket : string) (i : nat) (p : page)
    (output_keys : list string) : M (list string) :=
  img ← render_page i p 2;
  save img (local_img job_id i);;
  upload_file (local_img job_id i) pdf_bucket (output_key job_id i);;
  let output_keys := output_keys ++ [output_key job_id i] in
  remove_if_exists (local_img job_id i);;
  mret output_keys.

(** The loop over the pages [pdf[i], pdf[i+1], ...] that remain. *)
Fixpoint process_pages (job_id : json) (pdf_bucket : string) (i : nat)
    (pages : list page) (output_keys : list string) : M (list string) :=
  match pages with
  | [] => mret output_keys
  | p :: rest =>
      output_keys ← process_page job_id pdf_bucket i p output_keys;
      process_pages job_id pdf_bucket (S i) rest output_keys
  end.

(** *** The handler *)

Definition images_generated (job_id : json) (page_count : nat) (bus_name : string)
    : bus_entry :=
  {| Source := "pdf-lecture-service";
     DetailType := "ImagesGenerated";
     Detail := {| jobId := job_id; pageCount := page_count;
                  imagePrefix := output_prefix job_id |};
     EventBusName := bus_name |}.

(** Lines 81 to 113: the completion event, the removal of the local PDF
    and the returned dict. *)
Definition complete (job_id : json) (page_count : nat) (output_keys : list string)
    : M retval :=
  let event_bus_name := EVENT_BUS_NAME cfg in
  log INFO (msg_uploaded (length output_keys) (output_prefix job_id));;
  (if env_truthy event_bus_name then
     let bus_name := default "" event_bus_name in
     log INFO (msg_publishing bus_name);;
     put_events (images_generated job_id page_count bus_name)
   else log WARNING msg_no_bus);;
  remove_if_exists (local_pdf job_id);;
  mret (RDict {| ret_jobId := job_id; ret_pages := page_count;
                 ret_status := "success" |}).

(** Lines 33 to 113: everything after the job identifier is known. *)
Definition run_job (job_id : json) : M retval :=
  let pdf_bucket := S3_BUCKET_PDFS cfg in
  if negb (env_truthy pdf_bucket) then raise MissingConfiguration
  else
    let pdf_bucket := default "" pdf_bucket in
    log INFO (msg_downloading pdf_bucket (input_key job_id));;
    try_except (download_file pdf_bucket (input_key job_id) (local_pdf job_id))
      (λ e, log ERROR (msg_download_failed e);; raise e);;
    log INFO msg_converting;;
    pdf ← PdfDocument (local_pdf job_id);
    let page_count := length pdf in
    log INFO (msg_page_count page_count);;
    output_keys ← process_pages job_id pdf_bucket 0 pdf [];
    complete job_id page_count output_keys.

(** Lines 19 and 20: [event.get("detail", {}).get("jobId")]. *)
Definition job_id_of (event : json) : exn + json :=
  match dict_get event "detail" (JObj []) with
  | inl e => inl e
  | inr detail => dict_get detail "jobId" JNull
  end.

(** Lines 22 to 113, with [job_id] bound. *)
Definition dispatch (event job_id : json) : M retval :=
  if negb (py_truthy job_id) then
    if dict_contains "Records" event then
      log WARNING msg_s3_event;;
      mret RNone
    else raise InvalidTriggerPayload
  else run_job job_id.

(** [handler(event, context)].  The handler of the outer [try] logs the
    job identifier when [job_id] was assigned, and ['unknown'] otherwise. *)
Definition handler (event : json) : M retval :=
  log INFO (msg_received event);;
  match job_id_of event with
  | inl e => log ERROR (msg_error None e);; raise e
  | inr job_id =>
      try_except (dispatch event job_id)
        (λ e, log ERROR (msg_error (Some job_id) e);; raise e)
  end.

End Handler.

(** ** What a run leaves behind *)

(** The successful uploads recorded in a trace, as (bucket, key), in order. *)
Definition uploads (t : list io) : list (string * string) :=
  omap (λ c, match c with
             | s3_upload _ Bucket Key true => Some (Bucket, Key)
             | _ => None
             end) t.

(** The calls to [put_events] recorded in a trace, successful or not. *)
Definition publications (t : list io) : list bus_entry :=
  omap (λ c, match c with
             | put_events_call entry _ => Some entry
             | _ => None
             end) t.

Section Pages.
Context (rt : runtime) (fl : faults) (job_id : json) (pdf_bucket : string).

(** Nothing goes wrong for the pages [pages], the first of which has index
    [i]: each renders to its image of [imgs] and neither its [save] nor its
    upload has a fault planned. *)
Fixpoint pages_ok (i : nat) (pages : list page) (imgs : list blob) : Prop :=
  match pages, imgs with
  | [], [] => True
  | p :: pages, img :: imgs =>
      render rt p 2 = inr img ∧
      f_save fl (local_img rt job_id i) = None ∧
      f_upload fl pdf_bucket (output_key rt job_id i) = None ∧
      pages_ok (S i) pages imgs
  | _, _ => False
  end.

(** The calls of one iteration that goes through. *)
Definition page_events (i : nat) : list io :=
  [ page_render i 2 true;
    img_save (local_img rt job_id i) true;
    s3_upload (local_img rt job_id i) pdf_bucket (output_key rt job_id i) true;
    os_remove (local_img rt job_id i) ].

Fixpoint pages_events (i n : nat) : list io :=
  match n with
  | 0 => []
  | S n => page_events i ++ pages_events (S i) n
  end.

(** The bucket after the images [imgs] of pages [i], [i+1], ... are put. *)
Fixpoint store_pages (i : nat) (imgs : list blob) (m : gmap (string * string) blob)
    : gmap (string * string) blob :=
  match imgs with
  | [] => m
  | img :: imgs => store_pages (S i) imgs (<[(pdf_bucket, output_key rt job_id i) := img]> m)
  end.

(** The scratch directory after the images of [n] pages from [i] on were
    written and removed again. *)
Fixpoint sweep (i n : nat) (m : gmap string blob) : gmap string blob :=
  match n with
  | 0 => m
  | S n => sweep (S i) n (delete (local_img rt job_id i) m)
  end.

Definition pages_done (i : nat) (imgs : list blob) (w : world) : world :=
  {| s3 := store_pages i imgs (s3 w);
     fs := sweep i (length imgs) (fs w);
     bus := bus w;
     trace := trace w ++ pages_events i (length imgs);
     logs := logs w |}.

(** The calls of the loop over [pages] under the fault plan, whatever
    happens: iterations that go through, then possibly one that stops at
    its first failing call. *)
Fixpoint pages_trace (i : nat) (pages : list page) : list io :=
  match pages with
  | [] => []
  | p :: pages =>
      match render rt p 2 with
      | inl _ => [page_render i 2 false]
      | inr _ =>
          match f_save fl (local_img rt job_id i) with
          | Some _ => [page_render i 2 true; img_save (local_img rt job_id i) false]
          | None =>
              match f_upload fl pdf_bucket (output_key rt job_id i) with
              | Some _ =>
                  [ page_render i 2 true;
                    img_save (local_img rt job_id i) true;
                    s3_upload (local_img rt job_id i) pdf_bucket
                      (output_key rt job_id i) false ]
              | None => page_events i ++ pages_trace (S i) pages
              end
          end
      end
  end.

(** In a list of calls, the scratch image of every page is removed exactly
    when its upload went through. *)
Definition cleanup_follows_upload (t : list io) : Prop :=
  ∀ i, os_remove (local_img rt job_id i) ∈ t ↔
       s3_upload (local_img rt job_id i) pdf_bucket (output_key rt job_id i) true ∈ t.
End Pages.

(** The source document [body] is in the bucket under the job's input
    key, the download has no fault planned, and pdfium opens it as [pdf]. *)
Definition opens (rt : runtime) (cfg : config) (fl : faults) (w : world)
    (job_id : json) (pdf_bucket : string) (body : blob) (pdf : list page) : Prop :=
  S3_BUCKET_PDFS cfg = Some pdf_bucket ∧ pdf_bucket ≠ "" ∧
  f_download fl pdf_bucket (input_key rt job_id) = None ∧
  s3 w !! (pdf_bucket, input_key rt job_id) = Some body ∧
  pdf_open rt body = inr pdf.

(** The world once the source document [body] is on the local disk and
    open as [pdf], before the first page is rendered. *)
Definition opened (rt : runtime) (job_id : json) (pdf_bucket : string) (body : blob)
    (pdf : list page) (w : world) : world :=
  {| s3 := s3 w;
     fs := <[local_pdf rt job_id := body]> (fs w);
     bus := bus w;
     trace := trace w ++
       [ s3_download pdf_bucket (input_key rt job_id) (local_pdf rt job_id) true;
         pdfium_open (local_pdf rt job_id) true ];
     logs := logs w ++
       [ (INFO, msg_downloading pdf_bucket (input_key rt job_id));
         (INFO, msg_converting);
         (INFO, msg_page_count (length pdf)) ] |}.

(** The event published for a run with [n] pages, if a bus is configured. *)
Definition completion (rt : runtime) (cfg : config) (job_id : json) (n : nat)
    : list bus_entry :=
  if env_truthy (EVENT_BUS_NAME cfg)
  then [images_generated rt job_id n (default "" (EVENT_BUS_NAME cfg))]
  else [].

(** The world after a run in which nothing went wrong. *)
Definition finished (rt : runtime) (cfg : config) (event job_id : json)
    (pdf_bucket : string) (body : blob) (pdf : list page) (imgs : list blob)
    (w : world) : world :=
  {| s3 := store_pages rt job_id pdf_bucket 0 imgs (s3 w);
     fs := delete (local_pdf rt job_id)
             (sweep rt job_id 0 (length imgs) (<[local_pdf rt job_id := body]> (fs w)));
     bus := bus w ++ completion rt cfg job_id (length pdf);
     trace := trace w ++
       [ s3_download pdf_bucket (input_key rt job_id) (local_pdf rt job_id) true;
         pdfium_open (local_pdf rt job_id) true ] ++
       pages_events rt job_id pdf_bucket 0 (length pdf) ++
       ((λ entry, put_events_call entry true) <$> completion rt cfg job_id (length pdf)) ++
       [ os_remove (local_pdf rt job_id) ];
     logs := logs w ++
       [ (INFO, msg_received event);
         (INFO, msg_downloading pdf_bucket (input_key rt job_id));
         (INFO, msg_converting);
         (INFO, msg_page_count (length pdf));
         (INFO, msg_uploaded (length pdf) (output_prefix rt job_id));
         if env_truthy (EVENT_BUS_NAME cfg)
         then (INFO, msg_publishing (default "" (EVENT_BUS_NAME cfg)))
         else (WARNING, msg_no_bus) ] |}.

(** The world after a run in which the pages before page [k] (counted from
    0) went through with the images [imgs], and the upload of page [k],
    rendered as [img], raised [e]. *)
Definition upload_failed (rt : runtime) (event job_id : json) (pdf_bucket : string)
    (body : blob) (pdf : list page) (imgs : list blob) (img : blob) (e : exn)
    (w : world) : world :=
  let k := length imgs in
  {| s3 := store_pages rt job_id pdf_bucket 0 imgs (s3 w);
     fs := <[local_img rt job_id k := img]>
             (sweep rt job_id 0 k (<[local_pdf rt job_id := body]> (fs w)));
     bus := bus w;
     trace := trace w ++
       [ s3_download pdf_bucket (input_key rt job_id) (local_pdf rt job_id) true;
         pdfium_open (local_pdf rt job_id) true ] ++
       pages_events rt job_id pdf_bucket 0 k ++
       [ page_render k 2 true;
         img_save (local_img rt job_id k) true;
         s3_upload (local_img rt job_id k) pdf_bucket (output_key rt job_id k) false ];
     logs := logs w ++
       [ (INFO, msg_received event);
         (INFO, msg_downloading pdf_bucket (input_key rt job_id));
         (INFO, msg_converting);
         (INFO, msg_page_count (length pdf));
         (ERROR, msg_error (Some job_id) e) ] |}.

(** Nothing but the log differs between two worlds. *)
Definition quiet (w w1 : world) : Prop :=
  s3 w1 = s3 w ∧ fs w1 = fs w ∧ bus w1 = bus w ∧ trace w1 = trace w.

(** Every run of [m] appends to the trace a list of calls satisfying [P]. *)
Definition tracks (P : list io → Prop) {A} (m : M A) : Prop :=
  ∀ w res w1, m w = (res, w1) → ∃ delta, trace w1 = trace w ++ delta ∧ P delta.

(** The event's detail map holds a non-empty string under [jobId]. *)
Definition has_job_id_string (event : json) : Prop :=
  ∃ kv d s, event = JObj kv ∧ assoc "detail" kv = Some (JObj d) ∧
            assoc "jobId" d = Some (JStr s) ∧ s ≠ "".

(** ** A concrete job

    The scenario of the specification: job [abc123], a three-page PDF in
    bucket [docs], events on [bus1]. *)
Module Demo.
Definition three_pages : blob := "%PDF-1.7 three pages".
Definition no_pages : blob := "%PDF-1.7 no pages".

(** What pdfium finds in the bytes. *)
Definition load (body : blob) : exn + list page :=
  if String.eqb body three_pages then inr ["first"; "second"; "third"]
  else if String.eqb body no_pages then inr []
  else inl (PdfiumError "Failed to load document (PDFium: Data format error).").

(** What [PdfDocument] raises for a document without pages: the text is
    built from pdfium's last error code, here that of a load that went
    through. *)
Definition failure (body : blob) : string := "Failed to load document (PDFium: Success).".
Definition refused : exn := PdfiumError (failure no_pages).

Definition rt : runtime :=
  {| pdf_open := open_checked load failure;
     render := λ p scale, inr ("PNG " +:+ p +:+ " x" +:+ pretty scale);
     py_repr := λ _, "[...]" |}.

Definition cfg : config :=
  {| S3_BUCKET_PDFS := Some "docs"; EVENT_BUS_NAME := Some "bus1" |}.
Definition cfg_no_bus : config :=
  {| S3_BUCKET_PDFS := Some "docs"; EVENT_BUS_NAME := None |}.
Definition cfg_no_bucket : config :=
  {| S3_BUCKET_PDFS := None; EVENT_BUS_NAME := Some "bus1" |}.

Definition no_faults : faults :=
  {| f_download := λ _ _, None; f_save := λ _, None;
     f_upload := λ _ _, None; f_publish := None |}.

Definition throttled : exn :=
  ClientError "An error occurred (SlowDown) when calling the PutObject operation".

(** The upload of the second page fails. *)
Definition second_upload_fails : faults :=
  {| f_download := λ _ _, None; f_save := λ _, None;
     f_upload := λ _ Key,
       if String.eqb Key "abc123_pages/page_2.png" then Some throttled else None;
     f_publish := None |}.

Definition event : json := JObj [("detail", JObj [("jobId", JStr "abc123")])].
Definition event_with_records : json :=
  JObj [("Records", JList []); ("detail", JObj [("jobId", JStr "abc123")])].
Definition s3_event : json := JObj [("Records", JList [JObj []])].
Definition empty_event : json := JObj [("detail", JObj [])].
Definition numbered_event : json := JObj [("detail", JObj [("jobId", JNum 7)])].
Definition string_detail_event : json := JObj [("detail", JStr "abc123")].
Definition null_detail_event : json :=
  JObj [("Records", JList [JObj []]); ("detail", JNull)].

Definition start (Key : string) (body : blob) : world :=
  {| s3 := {[ ("docs", Key) := body ]}; fs := ∅; bus := []; trace := []; logs := [] |}.

Definition w0 : world := start "abc123/original.pdf" three_pages.
Definition w_empty : world := start "abc123/original.pdf" no_pages.
Definition w_numbered : world := start "7/original.pdf" three_pages.

(** The world after the job ran once, and after it ran again. *)
Definition w1 : world := snd (handler rt cfg no_faults event w0).
Definition w2 : world := snd (handler rt cfg no_faults event w1).
Definition success : retval :=
  RDict {| ret_jobId := JStr "abc123"; ret_pages := 3; ret_status := "success" |}.
End Demo.

(** ** The footprint of a job *)

(** The calls a run for [job_id] on [pdf_bucket] may make: the download of
    the source under its key to the local PDF, the opening of that file,
    renderings at scale 2, and saves, uploads and removals of the job's own
    scratch images under the job's own keys, the removal of the local PDF
    and the [ImagesGenerated] entry of the job on the configured bus. *)
Definition job_call (rt : runtime) (cfg : config) (job_id : json) (pdf_bucket : string)
    (c : io) : Prop :=
  match c with
  | s3_download Bucket Key Filename _ =>
      Bucket = pdf_bucket ∧ Key = input_key rt job_id ∧ Filename = local_pdf rt job_id
  | pdfium_open path _ => path = local_pdf rt job_id
  | page_render _ scale _ => scale = 2%Z
  | img_save path _ => ∃ i, path = local_img rt job_id i
  | s3_upload Filename Bucket Key _ =>
      Bucket = pdf_bucket ∧
      ∃ i, Filename = local_img rt job_id i ∧ Key = output_key rt job_id i
  | os_remove path => path = local_pdf rt job_id ∨ ∃ i, path = local_img rt job_id i
  | put_events_call entry _ =>
      ∃ n, entry = images_generated rt job_id n (default "" (EVENT_BUS_NAME cfg))
  end.

(** A value that is not a dict. *)
Definition not_dict (v : json) : Prop := ∀ kv, v ≠ JObj kv.

(** ** More concrete runs *)
Module Cases.
Definition denied : exn :=
  ClientError "An error occurred (403) when calling the HeadObject operation: Forbidden".
Definition disk_full : exn := OSError "[Errno 28] No space left on device".
Definition bad_page : exn := PdfiumError "Failed to load page.".
Definition bus_down : exn :=
  ClientError "An error occurred (InternalFailure) when calling the PutEvents operation".

Definition download_fails : faults :=
  {| f_download := λ _ _, Some denied; f_save := λ _, None;
     f_upload := λ _ _, None; f_publish := None |}.

(** Saving the image of the second page fails. *)
Definition second_save_fails : faults :=
  {| f_download := λ _ _, None;
     f_save := λ path,
       if String.eqb path "/tmp/abc123_page_2.png" then Some disk_full else None;
     f_upload := λ _ _, None; f_publish := None |}.

Definition publish_fails : faults :=
  {| f_download := λ _ _, None; f_save := λ _, None;
     f_upload := λ _ _, None; f_publish := Some bus_down |}.

(** A pdfium that cannot render the second page. *)
Definition rt_bad_page : runtime :=
  {| pdf_open := pdf_open Demo.rt;
     render := λ p scale,
       if String.eqb p "second" then inl bad_page else render Demo.rt p scale;
     py_repr := py_repr Demo.rt |}.

Definition w_corrupt : world := Demo.start "abc123/original.pdf" "not a PDF".
Definition w_no_source : world := Demo.start "other/original.pdf" Demo.three_pages.

(** A world with files and objects of other jobs around. *)
Definition w_shared : world :=
  {| s3 := <[("docs", "zzz_pages/page_1.png") := "PNG of another job"]> (s3 Demo.w0);
     fs := {[ "/tmp/zzz_original.pdf" := "the PDF of another job" ]};
     bus := []; trace := []; logs := [] |}.

Definition corrupt : exn :=
  PdfiumError "Failed to load document (PDFium: Data format error).".

(** The world after a run whose second upload failed, and after the retry. *)
Definition w_failed : world :=
  snd (handler Demo.rt Demo.cfg Demo.second_upload_fails Demo.event Demo.w0).
Definition w_retried : world :=
  snd (handler Demo.rt Demo.cfg Demo.no_faults Demo.event w_failed).
End Cases.

(** * Properties *)

(** ** Strings and derived names *)

Lemma string_app_cons a s t : String a s +:+ t = String a (s +:+ t).
Proof. reflexivity. Qed.

Lemma string_app_assoc s t u : (s +:+ t) +:+ u = s +:+ t +:+ u.
Proof. induction s as [|a s IH]; [done|]. rewrite !string_app_cons. by f_equal. Qed.

Lemma string_app_length s t :
  String.length (s +:+ t) = String.length s + String.length t.
Proof. induction s as [|a s IH]; [done|]. rewrite string_app_cons. simpl. by f_equal. Qed.

Lemma string_app_inv_tail s1 s2 t : s1 +:+ t = s2 +:+ t → s1 = s2.
Proof.
  revert s2. induction s1 as [|a s1 IH]; intros [|c s2] E.
  - done.
  - apply (f_equal String.length) in E.
    rewrite !string_app_length in E. simpl in E. lia.
  - apply (f_equal String.length) in E.
    rewrite !string_app_length in E. simpl in E. lia.
  - rewrite !string_app_cons in E. injection E as -> E. f_equal. by apply IH.
Qed.

Section Names.
Context (rt : runtime).

Lemma local_img_inj job i k : local_img rt job i = local_img rt job k → i = k.
Proof.
  unfold local_img. intros E.
  do 3 apply (inj (String.app _)) in E.
  apply string_app_inv_tail in E. apply (inj pretty) in E. lia.
Qed.

Lemma output_key_inj job i k : output_key rt job i = output_key rt job k → i = k.
Proof.
  unfold output_key. intros E.
  do 2 apply (inj (String.app _)) in E.
  apply string_app_inv_tail in E. apply (inj pretty) in E. lia.
Qed.

Lemma local_pdf_ne_img job i : local_pdf rt job ≠ local_img rt job i.
Proof.
  unfold local_pdf, local_img. intros E.
  do 2 apply (inj (String.app _)) in E. discriminate E.
Qed.

(** The source document and the page images never share a key. *)
Lemma input_key_ne_output job i : input_key rt job ≠ output_key rt job i.
Proof.
  unfold input_key, output_key, output_prefix. rewrite string_app_assoc. intros E.
  apply (inj (String.app _)) in E. discriminate E.
Qed.

(** The keys as the storage convention writes them, pages counted from 1. *)
Lemma output_key_spelled job i :
  output_key rt job i = py_str rt job +:+ "_pages/page_" +:+ pretty (S i) +:+ ".png".
Proof.
  unfold output_key, output_prefix. rewrite string_app_assoc.
  by replace (i + 1) with (S i) by lia.
Qed.
End Names.

(** ** The monad *)

Ltac unfold_world := unfold add_io, set_fs, set_s3, add_bus, add_log in *; simpl in *.

(** Brings nested appends to one right-nested list. *)
Ltac flatten := rewrite <- ?(assoc_L (++)); simpl.

Lemma bind_done {A B} (m : M A) (k : A → M B) w a w1 :
  m w = (Done a, w1) → (m ≫= k) w = k a w1.
Proof. unfold mbind, M_bind. by intros ->. Qed.

Lemma bind_raised {A B} (m : M A) (k : A → M B) w e w1 :
  m w = (Raised e, w1) → (m ≫= k) w = (Raised e, w1).
Proof. unfold mbind, M_bind. by intros ->. Qed.

Lemma bind_inv {A B} (m : M A) (k : A → M B) w res w2 :
  (m ≫= k) w = (res, w2) →
  (∃ a w1, m w = (Done a, w1) ∧ k a w1 = (res, w2)) ∨
  (∃ e, m w = (Raised e, w2) ∧ res = Raised e).
Proof.
  unfold mbind, M_bind. destruct (m w) as [[a|e] w1]; intros E.
  - left. eauto.
  - right. exists e. by simplify_eq.
Qed.

(** ** Traces *)

Lemma os_remove_inj p q : os_remove p = os_remove q → p = q.
Proof. by intros [= ->]. Qed.

Lemma s3_upload_inj f b k ok f' b' k' ok' :
  s3_upload f b k ok = s3_upload f' b' k' ok' → f = f' ∧ k = k'.
Proof. by intros [= -> _ -> _]. Qed.

(** Closes a goal relating memberships none of which holds. *)
Ltac absent :=
  rewrite ?elem_of_cons, ?elem_of_nil; intuition discriminate.

Lemma uploads_app t1 t2 : uploads (t1 ++ t2) = uploads t1 ++ uploads t2.
Proof. apply omap_app. Qed.

Lemma publications_app t1 t2 :
  publications (t1 ++ t2) = publications t1 ++ publications t2.
Proof. apply omap_app. Qed.

(** ** The page loop *)

Ltac unfold_page :=
  unfold process_page, render_page, save, upload_file, remove_if_exists,
    mbind, M_bind, mret, M_ret.
Ltac unfold_pages_done := unfold pages_done.

Section Loop.
Context (rt : runtime) (fl : faults) (job_id : json) (pdf_bucket : string).

Local Abbreviation local_img := (local_img rt job_id).
Local Abbreviation output_key := (output_key rt job_id).
Local Abbreviation process_page := (process_page rt fl job_id pdf_bucket).
Local Abbreviation process_pages := (process_pages rt fl job_id pdf_bucket).
Local Abbreviation pages_ok := (pages_ok rt fl job_id pdf_bucket).
Local Abbreviation pages_done := (pages_done rt job_id pdf_bucket).
Local Abbreviation pages_events := (pages_events rt job_id pdf_bucket).
Local Abbreviation page_events := (page_events rt job_id pdf_bucket).
Local Abbreviation pages_trace := (pages_trace rt fl job_id pdf_bucket).
Local Abbreviation store_pages := (store_pages rt job_id pdf_bucket).
Local Abbreviation sweep := (sweep rt job_id).

(** One iteration, call by call. *)
Lemma process_page_eq i p output_keys w :
  process_page i p output_keys w =
  match render rt p 2 with
  | inl e => (Raised e, add_io (page_render i 2 false) w)
  | inr img =>
      let w1 := add_io (page_render i 2 true) w in
      match f_save fl (local_img i) with
      | Some e => (Raised e, add_io (img_save (local_img i) false) w1)
      | None =>
          let w2 := add_io (img_save (local_img i) true)
                      (set_fs (insert (local_img i) img) w1) in
          match f_upload fl pdf_bucket (output_key i) with
          | Some e =>
              (Raised e,
               add_io (s3_upload (local_img i) pdf_bucket (output_key i) false) w2)
          | None => (Done (output_keys ++ [output_key i]), pages_done i [img] w)
          end
      end
  end.
Proof.
  unfold_page.
  destruct (render rt p 2) as [e|img]; [done|].
  destruct (f_save fl (local_img i)) as [e|]; [done|]. simpl.
  rewrite lookup_insert_eq.
  destruct (f_upload fl pdf_bucket (output_key i)) as [e|]; [done|]. simpl.
  rewrite lookup_insert_eq. unfold_pages_done. unfold_world.
  rewrite delete_insert_eq, <- !(assoc_L (++)). done.
Qed.

Lemma pages_ok_length i pages imgs : pages_ok i pages imgs → length imgs = length pages.
Proof.
  revert i imgs. induction pages as [|p pages IH]; intros i [|img imgs]; simpl; try done.
  intros (_ & _ & _ & H). f_equal. eauto.
Qed.

(** When nothing goes wrong the loop runs to its end. *)
Lemma process_pages_ok i pages imgs output_keys w :
  pages_ok i pages imgs →
  process_pages i pages output_keys w =
  (Done (output_keys ++ (output_key <$> seq i (length pages))), pages_done i imgs w).
Proof.
  revert i imgs output_keys w.
  induction pages as [|p pages IH]; intros i [|img imgs] output_keys w; simpl; try done.
  - intros _. unfold mret, M_ret. unfold_pages_done. simpl.
    rewrite !(right_id_L [] (++)). by destruct w.
  - intros (Hr & Hs & Hu & Hok).
    erewrite bind_done; last first.
    { rewrite process_page_eq, Hr. simpl. rewrite Hs, Hu. done. }
    rewrite (IH _ imgs); [|done]. f_equal.
    + f_equal. simpl. by rewrite <- (assoc_L (++)).
    + unfold_pages_done. simpl. by rewrite <- !(assoc_L (++)).
Qed.

(** The loop over [pre ++ rest] is the loop over [pre] followed, if that
    went through, by the loop over [rest]. *)
Lemma process_pages_app i pre rest output_keys w :
  process_pages i (pre ++ rest) output_keys w =
  match process_pages i pre output_keys w with
  | (Done output_keys1, w1) => process_pages (i + length pre) rest output_keys1 w1
  | (Raised e, w1) => (Raised e, w1)
  end.
Proof.
  revert i output_keys w. induction pre as [|p pre IH]; intros i output_keys w; simpl.
  - by rewrite Nat.add_0_r.
  - unfold mbind, M_bind.
    destruct (process_page i p output_keys w) as [[output_keys1|e] w1]; [|done].
    rewrite IH. by rewrite Nat.add_succ_r.
Qed.

(** The upload of the page after [pre] fails: the loop stops there with
    that exception, the image still on the local disk. *)
Lemma process_pages_upload_fails i pre p post imgs img e output_keys w :
  pages_ok i pre imgs →
  render rt p 2 = inr img →
  f_save fl (local_img (i + length pre)) = None →
  f_upload fl pdf_bucket (output_key (i + length pre)) = Some e →
  let k := i + length pre in
  process_pages i (pre ++ p :: post) output_keys w =
  (Raised e,
   add_io (s3_upload (local_img k) pdf_bucket (output_key k) false)
     (add_io (img_save (local_img k) true)
        (set_fs (insert (local_img k) img)
           (add_io (page_render k 2 true) (pages_done i imgs w))))).
Proof.
  intros Hok Hr Hs Hu k. rewrite process_pages_app, (process_pages_ok _ _ imgs) by done.
  simpl. erewrite bind_raised; [done|].
  rewrite process_page_eq, Hr. simpl. by rewrite Hs, Hu.
Qed.

(** Whatever happens, the loop makes the calls of [pages_trace] and
    leaves the published events and the log alone. *)
Lemma process_pages_trace i pages output_keys w res w1 :
  process_pages i pages output_keys w = (res, w1) →
  trace w1 = trace w ++ pages_trace i pages ∧ bus w1 = bus w ∧ logs w1 = logs w.
Proof.
  revert i output_keys w. induction pages as [|p pages IH]; intros i output_keys w; simpl.
  - intros [= <- <-]. by rewrite (right_id_L [] (++)).
  - unfold mbind, M_bind. rewrite process_page_eq.
    destruct (render rt p 2) as [e|img]; [intros [= <- <-]; done|]. simpl.
    destruct (f_save fl (local_img i)) as [e|].
    { intros [= <- <-]. unfold_world. by rewrite <- !(assoc_L (++)). }
    destruct (f_upload fl pdf_bucket (output_key i)) as [e|].
    { intros [= <- <-]. unfold_world. by rewrite <- !(assoc_L (++)). }
    intros (Ht & Hb & Hl)%IH. simpl in *. by rewrite <- !(assoc_L (++)) in Ht.
Qed.

(** The loop ends normally only if nothing went wrong. *)
Lemma process_pages_done_inv i pages output_keys w output_keys1 w1 :
  process_pages i pages output_keys w = (Done output_keys1, w1) →
  ∃ imgs, pages_ok i pages imgs.
Proof.
  revert i output_keys w. induction pages as [|p pages IH]; intros i output_keys w; simpl.
  - intros _. by exists [].
  - unfold mbind, M_bind. rewrite process_page_eq.
    destruct (render rt p 2) as [e|img] eqn:Hr; [done|]. simpl.
    destruct (f_save fl (local_img i)) as [e|] eqn:Hs; [done|].
    destruct (f_upload fl pdf_bucket (output_key i)) as [e|] eqn:Hu; [done|].
    intros [imgs Hok]%IH. exists (img :: imgs). simpl. by rewrite ?Hr, ?Hs, ?Hu.
Qed.

(** *** Traces of the loop *)

Lemma uploads_pages_events i n :
  uploads (pages_events i n) = (λ k, (pdf_bucket, output_key k)) <$> seq i n.
Proof. revert i. induction n as [|n IH]; intros i; simpl; [done|]. by rewrite IH. Qed.

Lemma publications_pages_events i n : publications (pages_events i n) = [].
Proof. revert i. induction n as [|n IH]; intros i; simpl; auto. Qed.

Lemma publications_pages_trace i pages : publications (pages_trace i pages) = [].
Proof.
  revert i. induction pages as [|p pages IH]; intros i; simpl; [done|].
  repeat case_match; simpl; auto.
Qed.

Lemma cleanup_follows_upload_pages i pages :
  cleanup_follows_upload rt job_id pdf_bucket (pages_trace i pages).
Proof.
  revert i. induction pages as [|p pages IH]; intros i k; simpl.
  { by rewrite !elem_of_nil. }
  destruct (render rt p 2) as [e|img]; [by absent|].
  destruct (f_save fl (local_img i)) as [e|]; [by absent|].
  destruct (f_upload fl pdf_bucket (output_key i)) as [e|]; [by absent|].
  rewrite !elem_of_cons, (IH (S i) k). split.
  - intros [?|[?|[?|[E%os_remove_inj%local_img_inj|?]]]]; try done; [|by auto 10].
    subst k. auto.
  - intros [?|[?|[E%s3_upload_inj|[?|?]]]]; try done; [|by auto 10].
    destruct E as [E%local_img_inj _]. subst k. auto.
Qed.

(** The images removed by [n] iterations from [i] on are those of the
    pages [i] to [i + n - 1]. *)
Lemma pages_events_remove i n k :
  os_remove (local_img k) ∈ pages_events i n ↔ i ≤ k < i + n.
Proof.
  revert i. induction n as [|n IH]; intros i; simpl.
  { rewrite elem_of_nil. lia. }
  rewrite !elem_of_cons, IH. split.
  - intros [?|[?|[?|[E%os_remove_inj%local_img_inj|?]]]]; try done; lia.
  - intros ?. destruct (decide (k = i)) as [->|]; [auto|]. do 4 right. lia.
Qed.

(** *** The bucket and the scratch directory after the loop *)

Lemma store_pages_insert i imgs κ v m :
  (∀ k, i ≤ k → κ ≠ (pdf_bucket, output_key k)) →
  store_pages i imgs (<[κ:=v]> m) = <[κ:=v]> (store_pages i imgs m).
Proof.
  revert i m. induction imgs as [|img imgs IH]; intros i m Hκ; simpl; [done|].
  rewrite insert_insert_ne by (apply not_eq_sym, Hκ; lia).
  apply IH. intros k ?. apply Hκ. lia.
Qed.

Lemma store_pages_lookup_other i imgs κ m :
  (∀ k, i ≤ k → κ ≠ (pdf_bucket, output_key k)) →
  store_pages i imgs m !! κ = m !! κ.
Proof.
  revert i m. induction imgs as [|img imgs IH]; intros i m Hκ; simpl; [done|].
  rewrite IH by (intros k ?; apply Hκ; lia).
  apply lookup_insert_ne, not_eq_sym, Hκ. lia.
Qed.

Lemma output_key_later i k : i < k → (pdf_bucket, output_key i) ≠ (pdf_bucket, output_key k).
Proof. intros ? [= E%output_key_inj]. lia. Qed.

(** Every image put by the loop is in the bucket under its page's key. *)
Lemma store_pages_lookup i imgs k img m :
  imgs !! k = Some img →
  store_pages i imgs m !! (pdf_bucket, output_key (i + k)) = Some img.
Proof.
  revert i k m. induction imgs as [|img0 imgs IH]; intros i [|k] m; simpl; try done.
  - intros [= ->]. rewrite Nat.add_0_r, store_pages_insert.
    + apply lookup_insert_eq.
    + intros k ?. apply output_key_later. lia.
  - intros H. rewrite Nat.add_succ_r. by apply (IH (S i)).
Qed.

(** Putting the same images again changes nothing. *)
Lemma store_pages_idemp i imgs m :
  store_pages i imgs (store_pages i imgs m) = store_pages i imgs m.
Proof.
  revert i m. induction imgs as [|img imgs IH]; intros i m; simpl; [done|].
  rewrite (store_pages_insert (S i) imgs _ img m)
    by (intros k ?; apply output_key_later; lia).
  rewrite insert_insert_eq.
  rewrite store_pages_insert by (intros k ?; apply output_key_later; lia).
  by rewrite IH.
Qed.

Lemma sweep_lookup_None i n k m :
  sweep i n m !! local_img k = None ↔ m !! local_img k = None ∨ i ≤ k < i + n.
Proof.
  revert i m. induction n as [|n IH]; intros i m; simpl; [intuition lia|].
  rewrite IH, lookup_delete_None. split.
  - intros [[E%local_img_inj|?]|?]; [right; lia|by left|right; lia].
  - intros [?|?]; [by left; right|].
    destruct (decide (k = i)) as [->|]; [by left; left|right; lia].
Qed.

(** The images of the pages that went through are gone from the disk. *)
Lemma sweep_lookup i n k m : i ≤ k < i + n → sweep i n m !! local_img k = None.
Proof. intros ?. apply sweep_lookup_None. by right. Qed.

Lemma sweep_lookup_pdf i n m :
  sweep i n m !! local_pdf rt job_id = m !! local_pdf rt job_id.
Proof.
  revert i m. induction n as [|n IH]; intros i m; simpl; [done|].
  rewrite IH. apply lookup_delete_ne, not_eq_sym, local_pdf_ne_img.
Qed.
End Loop.

(** Rendering is a function of the page: two plans under which the pages
    go through give the same images. *)
Lemma pages_ok_images rt fl1 fl2 job_id pdf_bucket i pages imgs1 imgs2 :
  pages_ok rt fl1 job_id pdf_bucket i pages imgs1 →
  pages_ok rt fl2 job_id pdf_bucket i pages imgs2 →
  imgs1 = imgs2.
Proof.
  revert i imgs1 imgs2.
  induction pages as [|p pages IH]; intros i [|img1 imgs1] [|img2 imgs2]; simpl; try done.
  intros (Hr1 & _ & _ & Hok1) (Hr2 & _ & _ & Hok2).
  rewrite Hr1 in Hr2. injection Hr2 as <-. f_equal. eauto.
Qed.

(** ** Whole runs *)

Ltac unfold_handler := unfold handler, dispatch.
Ltac unfold_run_job := unfold run_job.
Ltac unfold_complete := unfold complete.

Lemma env_truthy_true o : env_truthy o = true ↔ ∃ s, o = Some s ∧ s ≠ "".
Proof.
  destruct o as [s|]; simpl.
  - rewrite negb_true_iff, String.eqb_neq. split; [by eauto|].
    by intros (? & [= <-] & ?).
  - split; [done|]. by intros (? & ? & ?).
Qed.

Section Run.
Context (rt : runtime) (cfg : config) (fl : faults).

Local Abbreviation handler := (handler rt cfg fl).
Local Abbreviation run_job := (run_job rt cfg fl).
Local Abbreviation complete := (complete rt cfg fl).
Local Abbreviation process_pages := (process_pages rt fl).
Local Abbreviation opens := (opens rt cfg fl).
Local Abbreviation local_pdf := (local_pdf rt).
Local Abbreviation input_key := (input_key rt).

(** With a job identifier that counts as true the handler runs the job
    under its [except] clause, whatever else the event holds. *)
Lemma handler_decoded event job_id w :
  job_id_of event = inr job_id → py_truthy job_id = true →
  handler event w =
  try_except (run_job job_id)
    (λ e, log ERROR (msg_error (Some job_id) e);; raise e)
    (add_log INFO (msg_received event) w).
Proof.
  intros Hjob Htrue. unfold_handler. unfold mbind, M_bind, log.
  by rewrite Hjob, Htrue.
Qed.

(** From the configuration to the open document. *)
Lemma run_job_opened job_id pdf_bucket body pdf w :
  opens w job_id pdf_bucket body pdf →
  run_job job_id w =
  (output_keys ← process_pages job_id pdf_bucket 0 pdf [];
   complete job_id (length pdf) output_keys) (opened rt job_id pdf_bucket body pdf w).
Proof.
  intros (Hb & Hne & Hd & Hs3 & Hopen). unfold_run_job.
  rewrite (proj2 (env_truthy_true _)) by eauto. rewrite Hb. simpl.
  unfold mbind at 1 2 3 4 5 6, M_bind at 1 2 3 4 5 6.
  unfold log, try_except, download_file, PdfDocument. simpl.
  rewrite Hd, Hs3. simpl. rewrite lookup_insert_eq, Hopen.
  unfold opened, add_log, add_io, set_fs. simpl.
  by rewrite <- !(assoc_L (++)).
Qed.

(** The last stage, call by call. *)
Lemma complete_eq job_id n output_keys w :
  complete job_id n output_keys w =
  let w1 := add_log INFO (msg_uploaded (length output_keys) (output_prefix rt job_id)) w in
  let return_ w2 :=
    (Done (RDict {| ret_jobId := job_id; ret_pages := n; ret_status := "success" |}),
     match fs w2 !! local_pdf job_id with
     | Some _ => add_io (os_remove (local_pdf job_id)) (set_fs (delete (local_pdf job_id)) w2)
     | None => w2
     end) in
  if env_truthy (EVENT_BUS_NAME cfg) then
    let entry := images_generated rt job_id n (default "" (EVENT_BUS_NAME cfg)) in
    let w2 := add_log INFO (msg_publishing (default "" (EVENT_BUS_NAME cfg))) w1 in
    match f_publish fl with
    | Some e => (Raised e, add_io (put_events_call entry false) w2)
    | None => return_ (add_io (put_events_call entry true) (add_bus entry w2))
    end
  else return_ (add_log WARNING msg_no_bus w1).
Proof.
  unfold_complete. unfold mbind, M_bind, log, put_events, remove_if_exists, mret, M_ret.
  destruct (env_truthy (EVENT_BUS_NAME cfg)); simpl.
  - destruct (f_publish fl) as [e|]; [done|]. simpl.
    by destruct (fs w !! local_pdf job_id).
  - by destruct (fs w !! local_pdf job_id).
Qed.

(** A run in which nothing goes wrong. *)
Lemma handler_ok event job_id pdf_bucket body pdf imgs w :
  job_id_of event = inr job_id → py_truthy job_id = true →
  opens w job_id pdf_bucket body pdf →
  pages_ok rt fl job_id pdf_bucket 0 pdf imgs →
  (env_truthy (EVENT_BUS_NAME cfg) = true → f_publish fl = None) →
  handler event w =
  (Done (RDict {| ret_jobId := job_id; ret_pages := length pdf;
                  ret_status := "success" |}),
   finished rt cfg event job_id pdf_bucket body pdf imgs w).
Proof.
  intros Hjob Htrue Hopens Hok Hpub.
  rewrite (handler_decoded _ job_id) by done. unfold try_except.
  rewrite (run_job_opened _ pdf_bucket body pdf) by done.
  erewrite bind_done; [|by apply process_pages_ok].
  rewrite complete_eq. simpl. rewrite sweep_lookup_pdf, lookup_insert_eq.
  pose proof (pages_ok_length _ _ _ _ _ _ _ Hok) as Hlen.
  unfold finished, completion. rewrite length_fmap, length_seq.
  destruct (env_truthy (EVENT_BUS_NAME cfg)).
  - rewrite Hpub by done. unfold_world. rewrite Hlen. by flatten.
  - unfold_world. rewrite Hlen. flatten. by rewrite (right_id_L [] (++)).
Qed.

(** A run in which the upload of one page fails. *)
Lemma handler_upload_fails event job_id pdf_bucket body pre p post imgs img e w :
  job_id_of event = inr job_id → py_truthy job_id = true →
  opens w job_id pdf_bucket body (pre ++ p :: post) →
  pages_ok rt fl job_id pdf_bucket 0 pre imgs →
  render rt p 2 = inr img →
  f_save fl (local_img rt job_id (length pre)) = None →
  f_upload fl pdf_bucket (output_key rt job_id (length pre)) = Some e →
  handler event w =
  (Raised e, upload_failed rt event job_id pdf_bucket body (pre ++ p :: post) imgs img e w).
Proof.
  intros Hjob Htrue Hopens Hok Hr Hs Hu.
  rewrite (handler_decoded _ job_id) by done. unfold try_except.
  rewrite (run_job_opened _ pdf_bucket body (pre ++ p :: post)) by done.
  erewrite bind_raised; [|by apply (process_pages_upload_fails _ _ _ _ 0 pre p post imgs img e)].
  pose proof (pages_ok_length _ _ _ _ _ _ _ Hok) as Hlen.
  unfold upload_failed, mbind, M_bind, log, raise. rewrite Hlen.
  unfold_world. flatten. by rewrite ?Hlen.
Qed.

(** The [except] clause of the handler only logs. *)
Lemma handler_run event job_id w res w1 :
  job_id_of event = inr job_id → py_truthy job_id = true →
  handler event w = (res, w1) →
  ∃ w2, run_job job_id (add_log INFO (msg_received event) w) = (res, w2) ∧ quiet w2 w1.
Proof.
  intros Hjob Htrue. rewrite (handler_decoded _ job_id) by done. unfold try_except.
  destruct (run_job _ _) as [[v|e] w2]; intros [= <- <-]; by exists w2.
Qed.

(** A run of the job either stops before the loop is through, without
    any call to [put_events], or gets through every page and to the last
    stage. *)
Lemma run_job_cases job_id w res w1 :
  run_job job_id w = (res, w1) →
  (publications (trace w1) = publications (trace w) ∧ bus w1 = bus w ∧
   ∃ e, res = Raised e) ∨
  (∃ pdf_bucket body pdf imgs,
     opens w job_id pdf_bucket body pdf ∧
     pages_ok rt fl job_id pdf_bucket 0 pdf imgs ∧
     complete job_id (length pdf) (output_key rt job_id <$> seq 0 (length pdf))
       (pages_done rt job_id pdf_bucket 0 imgs (opened rt job_id pdf_bucket body pdf w))
     = (res, w1)).
Proof.
  destruct (env_truthy (S3_BUCKET_PDFS cfg)) eqn:Hbucket.
  2:{ unfold_run_job. rewrite Hbucket. intros [= <- <-]. left. eauto. }
  apply env_truthy_true in Hbucket as (pdf_bucket & Hb & Hne).
  destruct (f_download fl pdf_bucket (input_key job_id)) as [e|] eqn:Hd.
  { unfold_run_job. rewrite (proj2 (env_truthy_true _)), Hb by eauto. simpl.
    unfold mbind at 1 2, M_bind at 1 2, log, try_except, download_file. simpl.
    rewrite Hd. intros [= <- <-]. left. unfold_world.
    rewrite publications_app. simpl. rewrite (right_id_L [] (++)). eauto. }
  destruct (s3 w !! (pdf_bucket, input_key job_id)) as [body|] eqn:Hs3.
  2:{ unfold_run_job. rewrite (proj2 (env_truthy_true _)), Hb by eauto. simpl.
    unfold mbind at 1 2, M_bind at 1 2, log, try_except, download_file. simpl.
    rewrite Hd, Hs3. intros [= <- <-]. left. unfold_world.
    rewrite publications_app. simpl. rewrite (right_id_L [] (++)). eauto. }
  destruct (pdf_open rt body) as [e|pdf] eqn:Hopen.
  { unfold_run_job. rewrite (proj2 (env_truthy_true _)), Hb by eauto. simpl.
    unfold mbind at 1 2 3 4, M_bind at 1 2 3 4, log, try_except, download_file, PdfDocument.
    simpl. rewrite Hd, Hs3. simpl. rewrite lookup_insert_eq, Hopen.
    intros [= <- <-]. left. unfold_world.
    rewrite !publications_app. simpl. rewrite !(right_id_L [] (++)). eauto. }
  rewrite (run_job_opened _ pdf_bucket body pdf) by done.
  intros [(output_keys & w2 & Hloop & Hdone)|(e & Hloop & ->)]%bind_inv.
  - right. destruct (process_pages_done_inv _ _ _ _ _ _ _ _ _ _ Hloop) as [imgs Hok].
    rewrite (process_pages_ok _ _ _ _ _ _ imgs) in Hloop by done.
    injection Hloop as <- <-. by exists pdf_bucket, body, pdf, imgs.
  - left. apply process_pages_trace in Hloop as (Ht & Hbus & _).
    rewrite Ht, Hbus. unfold opened. simpl.
    rewrite !publications_app, publications_pages_trace. simpl.
    rewrite !(right_id_L [] (++)). eauto.
Qed.

(** A run of the job that returns is one in which nothing went wrong. *)
Lemma run_job_done_inv job_id w v w1 :
  run_job job_id w = (Done v, w1) →
  ∃ pdf_bucket body pdf imgs,
    opens w job_id pdf_bucket body pdf ∧
    pages_ok rt fl job_id pdf_bucket 0 pdf imgs ∧
    (env_truthy (EVENT_BUS_NAME cfg) = true → f_publish fl = None).
Proof.
  intros [(_ & _ & e & [=])|(pdf_bucket & body & pdf & imgs & Hopens & Hok & Hc)]%run_job_cases.
  exists pdf_bucket, body, pdf, imgs. split_and!; [done..|].
  intros Hbus. rewrite complete_eq in Hc. simpl in Hc. rewrite Hbus in Hc.
  by destruct (f_publish fl).
Qed.

(** The handler returns [None] for the legacy shape, without touching
    anything, or the dict of a run in which nothing went wrong. *)
Lemma handler_done_inv event w v w1 :
  handler event w = (Done v, w1) →
  (∃ job_id, job_id_of event = inr job_id ∧ py_truthy job_id = false ∧
             v = RNone ∧ quiet w w1) ∨
  (∃ job_id pdf_bucket body pdf imgs,
     job_id_of event = inr job_id ∧ py_truthy job_id = true ∧
     opens w job_id pdf_bucket body pdf ∧
     pages_ok rt fl job_id pdf_bucket 0 pdf imgs ∧
     (env_truthy (EVENT_BUS_NAME cfg) = true → f_publish fl = None)).
Proof.
  destruct (job_id_of event) as [e|job_id] eqn:Hjob.
  { unfold_handler. rewrite Hjob. done. }
  destruct (py_truthy job_id) eqn:Htrue.
  - intros (w2 & Hrun & _)%(handler_run _ job_id); [|done..].
    apply run_job_done_inv in Hrun as (pdf_bucket & body & pdf & imgs & Hopens & ? & ?).
    right. exists job_id, pdf_bucket, body, pdf, imgs. by split_and!.
  - unfold_handler. rewrite Hjob, Htrue. simpl.
    destruct (dict_contains "Records" event); [|done].
    intros [= <- <-]. left. by exists job_id.
Qed.
End Run.

(** ** Properties of the calls a run adds to the trace *)

Section Tracking.
Context (P : list io → Prop).
Hypothesis P_nil : P [].
Hypothesis P_app : ∀ t1 t2, P t1 → P t2 → P (t1 ++ t2).

Lemma tracks_ret {A} (a : A) : tracks P (mret a).
Proof using P_nil.
  intros w res w1 [= <- <-]. exists []. by rewrite (right_id_L [] (++)).
Qed.

Lemma tracks_raise {A} e : tracks P (@raise A e).
Proof using P_nil.
  intros w res w1 [= <- <-]. exists []. by rewrite (right_id_L [] (++)).
Qed.

Lemma tracks_log l m : tracks P (log l m).
Proof using P_nil.
  intros w res w1 [= <- <-]. exists []. simpl. by rewrite (right_id_L [] (++)).
Qed.

Lemma tracks_bind {A B} (m : M A) (k : A → M B) :
  tracks P m → (∀ a, tracks P (k a)) → tracks P (m ≫= k).
Proof using P_app.
  intros Hm Hk w res w2 [(a & w1 & Hmw & Hkw)|(e & Hmw & ->)]%bind_inv.
  - apply Hm in Hmw as (d1 & Ht1 & ?). apply Hk in Hkw as (d2 & Ht2 & ?).
    exists (d1 ++ d2). rewrite Ht2, Ht1, <- (assoc_L (++)). auto.
  - by apply Hm in Hmw.
Qed.

Lemma tracks_try {A} (m : M A) (h : exn → M A) :
  tracks P m → (∀ e, tracks P (h e)) → tracks P (try_except m h).
Proof using P_app.
  intros Hm Hh w res w2. unfold try_except.
  destruct (m w) as [[a|e] w1] eqn:Hmw.
  - intros [= <- <-]. by apply Hm in Hmw.
  - intros Hhw. apply Hm in Hmw as (d1 & Ht1 & ?). apply Hh in Hhw as (d2 & Ht2 & ?).
    exists (d1 ++ d2). rewrite Ht2, Ht1, <- (assoc_L (++)). auto.
Qed.

(** A primitive that makes at most the one call [c]. *)
Lemma tracks_call {A} (m : M A) (c : bool → io) :
  (∀ ok, P [c ok]) →
  (∀ w res w1, m w = (res, w1) → trace w1 = trace w ∨ ∃ ok, trace w1 = trace w ++ [c ok]) →
  tracks P m.
Proof using P_nil.
  intros Hc Hm w res w1 [->|[ok ->]]%Hm.
  - exists []. by rewrite (right_id_L [] (++)).
  - by exists [c ok].
Qed.
End Tracking.

Section Cleanup.
Context (rt : runtime) (cfg : config) (fl : faults) (job_id : json) (pdf_bucket : string).

Local Abbreviation balanced := (cleanup_follows_upload rt job_id pdf_bucket).

Lemma balanced_nil : balanced [].
Proof. intros i. by rewrite !elem_of_nil. Qed.

Lemma balanced_app t1 t2 : balanced t1 → balanced t2 → balanced (t1 ++ t2).
Proof. intros H1 H2 i. by rewrite !elem_of_app, (H1 i), (H2 i). Qed.

Lemma balanced_pdf : balanced [os_remove (local_pdf rt job_id)].
Proof.
  intros i. rewrite !list_elem_of_singleton. split; [|done].
  intros E%os_remove_inj. by destruct (local_pdf_ne_img rt job_id i).
Qed.

Lemma tracks_download Key Filename :
  tracks balanced (download_file fl pdf_bucket Key Filename).
Proof.
  apply (tracks_call _ balanced_nil _ (s3_download pdf_bucket Key Filename)).
  - intros ok i. by absent.
  - intros w res w1. unfold download_file.
    repeat case_match; intros [= <- <-]; right; by eexists.
Qed.

Lemma tracks_open path : tracks balanced (PdfDocument rt path).
Proof.
  apply (tracks_call _ balanced_nil _ (pdfium_open path)).
  - intros ok i. by absent.
  - intros w res w1. unfold PdfDocument.
    repeat case_match; intros [= <- <-]; right; by eexists.
Qed.

Lemma tracks_put_events entry : tracks balanced (put_events fl entry).
Proof.
  apply (tracks_call _ balanced_nil _ (put_events_call entry)).
  - intros ok i. by absent.
  - intros w res w1. unfold put_events.
    repeat case_match; intros [= <- <-]; right; by eexists.
Qed.

Lemma tracks_remove_pdf : tracks balanced (remove_if_exists (local_pdf rt job_id)).
Proof.
  apply (tracks_call _ balanced_nil _ (λ _, os_remove (local_pdf rt job_id)));
    [intros _; apply balanced_pdf|].
  intros w res w1. unfold remove_if_exists.
  case_match; intros [= <- <-]; [right; by exists true|by left].
Qed.

Lemma tracks_process_pages i pages output_keys :
  tracks balanced (process_pages rt fl job_id pdf_bucket i pages output_keys).
Proof.
  intros w res w1 (Ht & _)%process_pages_trace.
  eexists. split; [done|]. apply cleanup_follows_upload_pages.
Qed.

Ltac track :=
  repeat first
    [ apply (tracks_bind _ balanced_app); [|intros ?]
    | apply (tracks_try _ balanced_app); [|intros ?]
    | apply (tracks_log _ balanced_nil)
    | apply (tracks_ret _ balanced_nil)
    | apply (tracks_raise _ balanced_nil)
    | apply tracks_download
    | apply tracks_open
    | apply tracks_put_events
    | apply tracks_remove_pdf
    | apply tracks_process_pages
    | case_match ].

Lemma tracks_complete n output_keys :
  tracks balanced (complete rt cfg fl job_id n output_keys).
Proof. unfold complete. track. Qed.

(** Whatever happens in a run of the job, the scratch image of a page is
    removed exactly when that page's upload went through. *)
Lemma tracks_run_job :
  S3_BUCKET_PDFS cfg = Some pdf_bucket →
  tracks balanced (run_job rt cfg fl job_id).
Proof.
  intros Hb. unfold run_job. rewrite Hb. simpl.
  destruct (negb _); [by apply tracks_raise, balanced_nil|].
  track.
Qed.
End Cleanup.

(** ** Pieces of whole runs *)

Lemma uploads_completion rt cfg job_id n :
  uploads ((λ entry, put_events_call entry true) <$> completion rt cfg job_id n) = [].
Proof. unfold completion. by case_match. Qed.

Lemma output_keys_spelled rt job_id (pdf_bucket : string) n :
  (λ k, (pdf_bucket, output_key rt job_id k)) <$> seq 0 n =
  (λ k, (pdf_bucket, py_str rt job_id +:+ "_pages/page_" +:+ pretty k +:+ ".png")) <$> seq 1 n.
Proof.
  rewrite <- fmap_S_seq, <- list_fmap_compose. apply list_fmap_ext.
  intros _ k _. simpl. by rewrite output_key_spelled.
Qed.

Lemma opens_unique rt cfg fl w job_id b1 body1 pdf1 b2 body2 pdf2 :
  opens rt cfg fl w job_id b1 body1 pdf1 → opens rt cfg fl w job_id b2 body2 pdf2 →
  b1 = b2 ∧ body1 = body2 ∧ pdf1 = pdf2.
Proof.
  intros (Hb1 & _ & _ & Hs1 & Ho1) (Hb2 & _ & _ & Hs2 & Ho2).
  rewrite Hb1 in Hb2. injection Hb2 as <-.
  rewrite Hs1 in Hs2. injection Hs2 as <-.
  rewrite Ho1 in Ho2. by injection Ho2 as <-.
Qed.

(** The last stage uploads nothing and leaves the bucket alone. *)
Lemma complete_tail rt cfg fl job_id n output_keys w res w1 :
  complete rt cfg fl job_id n output_keys w = (res, w1) →
  ∃ tail, trace w1 = trace w ++ tail ∧ uploads tail = [] ∧ s3 w1 = s3 w.
Proof.
  rewrite complete_eq. simpl.
  destruct (env_truthy (EVENT_BUS_NAME cfg)); [destruct (f_publish fl) as [e|]|].
  - intros [= <- <-]. by eexists [_].
  - destruct (fs w !! local_pdf rt job_id); intros [= <- <-]; unfold_world.
    + eexists [_; _]. by flatten.
    + by eexists [_].
  - destruct (fs w !! local_pdf rt job_id); intros [= <- <-]; unfold_world.
    + by eexists [_].
    + exists []. by rewrite (right_id_L [] (++)).
Qed.

(** The event, or its [detail], is not a dict: line 19 or 20 raises. *)
Lemma handler_no_dict rt cfg fl event e w :
  job_id_of event = inl e →
  handler rt cfg fl event w =
  (Raised e, add_log ERROR (msg_error None e) (add_log INFO (msg_received event) w)).
Proof. intros Hjob. unfold handler, mbind, M_bind, log. by rewrite Hjob. Qed.

(** pdfium cannot open the downloaded file. *)
Lemma handler_open_fails rt cfg fl event job_id pdf_bucket body e w :
  job_id_of event = inr job_id → py_truthy job_id = true →
  S3_BUCKET_PDFS cfg = Some pdf_bucket → pdf_bucket ≠ "" →
  f_download fl pdf_bucket (input_key rt job_id) = None →
  s3 w !! (pdf_bucket, input_key rt job_id) = Some body →
  pdf_open rt body = inl e →
  handler rt cfg fl event w =
  (Raised e,
   add_log ERROR (msg_error (Some job_id) e)
     (add_io (pdfium_open (local_pdf rt job_id) false)
        (add_log INFO msg_converting
           (add_io (s3_download pdf_bucket (input_key rt job_id) (local_pdf rt job_id) true)
              (set_fs (insert (local_pdf rt job_id) body)
                 (add_log INFO (msg_downloading pdf_bucket (input_key rt job_id))
                    (add_log INFO (msg_received event) w))))))).
Proof.
  intros Hjob Htrue Hb Hne Hd Hs3 Hopen.
  rewrite (handler_decoded _ _ _ _ job_id) by done.
  unfold try_except at 1, run_job.
  rewrite (proj2 (env_truthy_true _)), Hb by eauto. simpl.
  unfold mbind at 1 2 3 4, M_bind at 1 2 3 4, log, try_except, download_file, PdfDocument.
  simpl. rewrite Hd, Hs3. simpl. rewrite lookup_insert_eq, Hopen. reflexivity.
Qed.

(** * The claims of the specification *)

(** C1.  A source PDF that opens with N pages, in a run in which nothing
    goes wrong: the handler returns the success dict with [pages] N; the
    uploads it makes are exactly those of the N keys
    [{jobId}_pages/page_1.png], ..., [{jobId}_pages/page_N.png], in this
    order, each object holding the image of its page; and the event it
    publishes, when a bus is configured, has [pageCount] N. *)
Theorem handler_uploads_every_page rt cfg fl event job_id pdf_bucket body pdf imgs w :
  job_id_of event = inr job_id → py_truthy job_id = true →
  opens rt cfg fl w job_id pdf_bucket body pdf →
  pages_ok rt fl job_id pdf_bucket 0 pdf imgs →
  (env_truthy (EVENT_BUS_NAME cfg) = true → f_publish fl = None) →
  ∃ w1,
    handler rt cfg fl event w =
      (Done (RDict {| ret_jobId := job_id; ret_pages := length pdf;
                      ret_status := "success" |}), w1) ∧
    uploads (trace w1) = uploads (trace w) ++
      ((λ n, (pdf_bucket, py_str rt job_id +:+ "_pages/page_" +:+ pretty n +:+ ".png"))
         <$> seq 1 (length pdf)) ∧
    (∀ k img, imgs !! k = Some img →
       s3 w1 !! (pdf_bucket, output_key rt job_id k) = Some img) ∧
    bus w1 = bus w ++
      (if env_truthy (EVENT_BUS_NAME cfg)
       then [ {| Source := "pdf-lecture-service";
                 DetailType := "ImagesGenerated";
                 Detail := {| jobId := job_id; pageCount := length pdf;
                              imagePrefix := py_str rt job_id +:+ "_pages" |};
                 EventBusName := default "" (EVENT_BUS_NAME cfg) |} ]
       else []).
Proof.
  intros Hjob Htrue Hopens Hok Hpub. eexists. split; [by eapply handler_ok|].
  unfold finished. cbn [trace s3 bus]. split_and!.
  - rewrite !uploads_app, uploads_pages_events, uploads_completion. simpl.
    by rewrite (right_id_L [] (++)), output_keys_spelled.
  - intros k img Hk. by apply (store_pages_lookup _ _ _ 0).
  - done.
Qed.

Lemma handler_uploads_every_page_witness :
  ∃ w1,
    handler Demo.rt Demo.cfg Demo.no_faults Demo.event Demo.w0 =
      (Done (RDict {| ret_jobId := JStr "abc123"; ret_pages := 3;
                      ret_status := "success" |}), w1) ∧
    uploads (trace w1) =
      [ ("docs", "abc123_pages/page_1.png");
        ("docs", "abc123_pages/page_2.png");
        ("docs", "abc123_pages/page_3.png") ] ∧
    (∀ k img, ["PNG first x2"; "PNG second x2"; "PNG third x2"] !! k = Some img →
       s3 w1 !! ("docs", output_key Demo.rt (JStr "abc123") k) = Some img) ∧
    bus w1 =
      [ {| Source := "pdf-lecture-service";
           DetailType := "ImagesGenerated";
           Detail := {| jobId := JStr "abc123"; pageCount := 3;
                        imagePrefix := "abc123_pages" |};
           EventBusName := "bus1" |} ].
Proof.
  apply (handler_uploads_every_page Demo.rt Demo.cfg Demo.no_faults Demo.event
           (JStr "abc123") "docs" Demo.three_pages ["first"; "second"; "third"]
           ["PNG first x2"; "PNG second x2"; "PNG third x2"] Demo.w0).
  - reflexivity.
  - reflexivity.
  - unfold opens. split_and!; [reflexivity|discriminate|reflexivity..].
  - simpl. split_and!; reflexivity.
  - reflexivity.
Defined.

(** C2.  With the document open as [pdf]: (1) in any run that calls
    [put_events], the calls made split into a first part that holds the
    successful uploads of all the pages and no call to [put_events], and a
    rest without uploads, so the event is published only after every upload
    went through; (2) if the upload of the page after [pre] raises [e] (the
    pages of [pre] having gone through), the handler raises [e], no event is
    published and [put_events] is not called, and the images of the pages of
    [pre] were uploaded and are still in the bucket. *)
Theorem completion_only_after_uploads rt cfg fl event job_id pdf_bucket body pdf w :
  job_id_of event = inr job_id → py_truthy job_id = true →
  opens rt cfg fl w job_id pdf_bucket body pdf →
  (∀ res w1,
     handler rt cfg fl event w = (res, w1) →
     publications (trace w1) ≠ publications (trace w) →
     ∃ head tail,
       trace w1 = trace w ++ head ++ tail ∧
       publications head = [] ∧
       uploads head = (λ k, (pdf_bucket, output_key rt job_id k)) <$> seq 0 (length pdf) ∧
       uploads tail = []) ∧
  (∀ pre p post imgs img e,
     pdf = pre ++ p :: post →
     pages_ok rt fl job_id pdf_bucket 0 pre imgs →
     render rt p 2 = inr img →
     f_save fl (local_img rt job_id (length pre)) = None →
     f_upload fl pdf_bucket (output_key rt job_id (length pre)) = Some e →
     ∃ w1,
       handler rt cfg fl event w = (Raised e, w1) ∧
       bus w1 = bus w ∧
       publications (trace w1) = publications (trace w) ∧
       uploads (trace w1) = uploads (trace w) ++
         ((λ k, (pdf_bucket, output_key rt job_id k)) <$> seq 0 (length pre)) ∧
       (∀ k img, imgs !! k = Some img →
          s3 w1 !! (pdf_bucket, output_key rt job_id k) = Some img)).
Proof.
  intros Hjob Htrue Hopens. split.
  - intros res w1 (w2 & Hrun & _ & _ & _ & Ht)%(handler_run _ _ _ _ job_id) Hpub; [|done..].
    rewrite Ht in *. clear Ht w1.
    apply run_job_cases in Hrun
      as [(Hsame & _)|(b2 & body2 & pdf2 & imgs & Hopens2 & Hok & Hc)]; [done|].
    destruct (opens_unique _ _ _ _ _ _ _ _ _ _ _ Hopens Hopens2) as (<- & <- & <-).
    apply complete_tail in Hc as (tail & Ht & Hup & _).
    exists ([ s3_download pdf_bucket (input_key rt job_id) (local_pdf rt job_id) true;
              pdfium_open (local_pdf rt job_id) true ] ++
            pages_events rt job_id pdf_bucket 0 (length imgs)), tail.
    split_and!.
    + rewrite Ht. simpl. by flatten.
    + by rewrite publications_app, publications_pages_events.
    + rewrite uploads_app, uploads_pages_events. simpl.
      by rewrite (pages_ok_length _ _ _ _ _ _ _ Hok).
    + done.
  - intros pre p post imgs img e -> Hok Hr Hs Hu. eexists.
    split; [by eapply handler_upload_fails|].
    pose proof (pages_ok_length _ _ _ _ _ _ _ Hok) as Hlen.
    unfold upload_failed. cbn [trace s3 bus]. split_and!.
    + done.
    + rewrite !publications_app, publications_pages_events. simpl.
      by rewrite (right_id_L [] (++)).
    + rewrite !uploads_app, uploads_pages_events, Hlen. simpl.
      by rewrite (right_id_L [] (++)).
    + intros k img0 Hk. by apply (store_pages_lookup _ _ _ 0).
Qed.

Lemma completion_only_after_uploads_witness :
  (∃ head tail,
     trace (finished Demo.rt Demo.cfg Demo.event (JStr "abc123") "docs" Demo.three_pages
              ["first"; "second"; "third"]
              ["PNG first x2"; "PNG second x2"; "PNG third x2"] Demo.w0)
     = trace Demo.w0 ++ head ++ tail ∧
     publications head = [] ∧
     uploads head =
       (λ k, ("docs", output_key Demo.rt (JStr "abc123") k)) <$> seq 0 3 ∧
     uploads tail = []) ∧
  (∃ w1,
     handler Demo.rt Demo.cfg Demo.second_upload_fails Demo.event Demo.w0
     = (Raised Demo.throttled, w1) ∧
     bus w1 = [] ∧
     publications (trace w1) = [] ∧
     uploads (trace w1) = [("docs", "abc123_pages/page_1.png")] ∧
     (∀ k img, ["PNG first x2"] !! k = Some img →
        s3 w1 !! ("docs", output_key Demo.rt (JStr "abc123") k) = Some img)).
Proof.
  split.
  - apply (completion_only_after_uploads Demo.rt Demo.cfg Demo.no_faults Demo.event
             (JStr "abc123") "docs" Demo.three_pages ["first"; "second"; "third"] Demo.w0)
      with (res := Done (RDict {| ret_jobId := JStr "abc123"; ret_pages := 3;
                                  ret_status := "success" |})).
    + reflexivity.
    + reflexivity.
    + unfold opens. split_and!; [reflexivity|discriminate|reflexivity..].
    + reflexivity.
    + discriminate.
  - apply (completion_only_after_uploads Demo.rt Demo.cfg Demo.second_upload_fails
             Demo.event (JStr "abc123") "docs" Demo.three_pages
             ["first"; "second"; "third"] Demo.w0)
      with (pre := ["first"]) (p := "second") (post := ["third"])
           (img := "PNG second x2").
    + reflexivity.
    + reflexivity.
    + unfold opens. split_and!; [reflexivity|discriminate|reflexivity..].
    + reflexivity.
    + simpl. split_and!; reflexivity.
    + reflexivity.
    + reflexivity.
    + reflexivity.
Defined.

(** ** The trigger decoder *)

(** What lines 19 and 20 compute: the event must be a dict, its [detail],
    when present, must be a dict, and the job identifier is the value under
    [jobId], or [None]. *)
Lemma job_id_of_inr event job_id :
  job_id_of event = inr job_id ↔
  ∃ kv, event = JObj kv ∧
    ((assoc "detail" kv = None ∧ job_id = JNull) ∨
     (∃ d, assoc "detail" kv = Some (JObj d) ∧ job_id = default JNull (assoc "jobId" d))).
Proof.
  unfold job_id_of. split.
  - destruct event as [| | | | |kv]; try done. simpl.
    destruct (assoc "detail" kv) as [[| | | | |d]|] eqn:Hd; simpl; try done.
    + intros [= <-]. exists kv. split; [done|]. right. by exists d.
    + intros [= <-]. exists kv. split; [done|]. by left.
  - intros (kv & -> & [[Hd ->]|(d & Hd & ->)]); simpl; by rewrite Hd.
Qed.

Lemma job_id_of_string kv d s :
  assoc "detail" kv = Some (JObj d) → assoc "jobId" d = Some (JStr s) →
  job_id_of (JObj kv) = inr (JStr s).
Proof. intros Hd Hs. apply job_id_of_inr. exists kv. split; [done|]. right. exists d. by rewrite Hs. Qed.

Lemma py_truthy_string s : s ≠ "" → py_truthy (JStr s) = true.
Proof. intros ?. simpl. by rewrite negb_true_iff, String.eqb_neq. Qed.

(** C3, as the code has it.  (1) If the event's [detail] map holds a
    non-empty string under [jobId], that string is the job identifier: it is
    what the decoder yields, what names are formatted from, and what the
    job is run with.  (2) If [detail] is absent or a map whose [jobId] is
    absent or false as a truth value ([None], [""], [0], [False], an empty
    list or dict), and the event has no [Records] key, the handler raises
    [InvalidTriggerPayload] and touches nothing. *)
Theorem decoder_job_id rt cfg fl w :
  (∀ kv d s,
     assoc "detail" kv = Some (JObj d) → assoc "jobId" d = Some (JStr s) → s ≠ "" →
     job_id_of (JObj kv) = inr (JStr s) ∧
     py_str rt (JStr s) = s ∧
     dispatch rt cfg fl (JObj kv) (JStr s) = run_job rt cfg fl (JStr s)) ∧
  (∀ event job_id,
     job_id_of event = inr job_id → py_truthy job_id = false →
     dict_contains "Records" event = false →
     ∃ w1, handler rt cfg fl event w = (Raised InvalidTriggerPayload, w1) ∧ quiet w w1).
Proof.
  split.
  - intros kv d s Hd Hs Hne. split_and!.
    + by apply (job_id_of_string kv d).
    + done.
    + unfold dispatch. by rewrite py_truthy_string.
  - intros event job_id Hjob Hfalse Hrec. eexists. split.
    + unfold handler, dispatch, mbind, M_bind, log, try_except.
      rewrite Hjob, Hfalse, Hrec. simpl. reflexivity.
    + done.
Qed.

Lemma decoder_job_id_witness :
  (job_id_of Demo.event = inr (JStr "abc123") ∧
   py_str Demo.rt (JStr "abc123") = "abc123" ∧
   dispatch Demo.rt Demo.cfg Demo.no_faults Demo.event (JStr "abc123")
   = run_job Demo.rt Demo.cfg Demo.no_faults (JStr "abc123")) ∧
  (∃ w1, handler Demo.rt Demo.cfg Demo.no_faults Demo.empty_event Demo.w0
         = (Raised InvalidTriggerPayload, w1) ∧ quiet Demo.w0 w1).
Proof.
  split.
  - apply (proj1 (decoder_job_id Demo.rt Demo.cfg Demo.no_faults Demo.w0))
      with (d := [("jobId", JStr "abc123")]).
    + reflexivity.
    + reflexivity.
    + discriminate.
  - apply (proj2 (decoder_job_id Demo.rt Demo.cfg Demo.no_faults Demo.w0))
      with (job_id := JNull).
    + reflexivity.
    + reflexivity.
    + reflexivity.
Defined.

(** Not every event without a [jobId] string and without a [Records] key
    is refused with [InvalidTriggerPayload]: when [jobId] is the number 7
    the handler runs the job [7] on the three-page document under
    [7/original.pdf], uploads its pages under [7_pages/] and returns the
    success dict. *)
Lemma job_id_need_not_be_a_string :
  ¬ has_job_id_string Demo.numbered_event ∧
  dict_contains "Records" Demo.numbered_event = false ∧
  ∃ w1,
    handler Demo.rt Demo.cfg Demo.no_faults Demo.numbered_event Demo.w_numbered
    = (Done (RDict {| ret_jobId := JNum 7; ret_pages := 3; ret_status := "success" |}),
       w1) ∧
    uploads (trace w1) =
      [ ("docs", "7_pages/page_1.png");
        ("docs", "7_pages/page_2.png");
        ("docs", "7_pages/page_3.png") ].
Proof.
  split; [|split; [reflexivity|]].
  - intros (kv & d & s & [= <-] & [= <-] & Hs & _). discriminate Hs.
  - eexists. split; [vm_compute; reflexivity|]. vm_compute. reflexivity.
Qed.

(** A [detail] that is not a dict has no [get]: the [AttributeError] of
    line 20 is what the handler raises, [job_id] never being assigned. *)
Example detail_must_be_a_dict :
  handler Demo.rt Demo.cfg Demo.no_faults Demo.string_detail_event Demo.w0 =
  (Raised (AttributeError "'str' object has no attribute 'get'"),
   add_log ERROR (msg_error None (AttributeError "'str' object has no attribute 'get'"))
     (add_log INFO (msg_received Demo.string_detail_event) Demo.w0)).
Proof. reflexivity. Qed.

(** C8, as the code has it.  An event with a [Records] key.  (1) If it has
    no job identifier, its [detail] being absent or a map whose [jobId] is
    absent or false as a truth value, the handler returns [None] at once,
    raises nothing, and only logs: the bucket, the local disk, the published
    events and the list of external calls are as before.  (2) If its
    [detail] is present and not a map, line 20 raises the [AttributeError]
    of the [get] that value lacks and the handler raises it, again touching
    nothing. *)
Theorem legacy_records_ignored rt cfg fl kv w :
  assoc "Records" kv ≠ None →
  (∀ job_id,
     job_id_of (JObj kv) = inr job_id → py_truthy job_id = false →
     ∃ w1,
       handler rt cfg fl (JObj kv) w = (Done RNone, w1) ∧
       quiet w w1 ∧
       logs w1 = logs w ++ [(INFO, msg_received (JObj kv)); (WARNING, msg_s3_event)]) ∧
  (∀ v,
     assoc "detail" kv = Some v → not_dict v →
     ∃ w1,
       handler rt cfg fl (JObj kv) w =
         (Raised (AttributeError ("'" +:+ type_name v +:+ "' object has no attribute 'get'")),
          w1) ∧
       quiet w w1).
Proof.
  intros Hrec. split.
  - intros job_id Hjob Hfalse. eexists. split.
    + unfold handler, dispatch, mbind, M_bind, log, try_except.
      rewrite Hjob, Hfalse. simpl.
      rewrite bool_decide_eq_true_2 by (by apply not_eq_None_Some). reflexivity.
    + split; [done|]. simpl. by flatten.
  - intros v Hd Hv. eexists. split.
    + apply handler_no_dict. unfold job_id_of. simpl. rewrite Hd. simpl.
      destruct v as [| | | | |d]; try done. by destruct (Hv d).
    + done.
Qed.

Lemma legacy_records_ignored_witness :
  (∃ w1,
     handler Demo.rt Demo.cfg Demo.no_faults Demo.s3_event Demo.w0 = (Done RNone, w1) ∧
     quiet Demo.w0 w1 ∧
     logs w1 = logs Demo.w0 ++
       [(INFO, msg_received Demo.s3_event); (WARNING, msg_s3_event)]) ∧
  (∃ w1,
     handler Demo.rt Demo.cfg Demo.no_faults Demo.null_detail_event Demo.w0 =
       (Raised (AttributeError ("'" +:+ type_name JNull +:+
                                "' object has no attribute 'get'")), w1) ∧
     quiet Demo.w0 w1).
Proof.
  split.
  - apply (proj1 (legacy_records_ignored Demo.rt Demo.cfg Demo.no_faults
                    [("Records", JList [JObj []])] Demo.w0 ltac:(discriminate)) JNull).
    + reflexivity.
    + reflexivity.
  - apply (proj2 (legacy_records_ignored Demo.rt Demo.cfg Demo.no_faults
                    [("Records", JList [JObj []]); ("detail", JNull)] Demo.w0
                    ltac:(discriminate)) JNull).
    + reflexivity.
    + intros d. discriminate.
Defined.

(** Not every event that has a [Records] key and no [jobId] in its [detail]
    is passed over without an error: with [detail] present and [None] there
    is nothing to look [jobId] up in, and line 20 raises. *)
Lemma legacy_records_with_null_detail :
  dict_contains "Records" Demo.null_detail_event = true ∧
  ¬ (∃ kv d v, Demo.null_detail_event = JObj kv ∧
               assoc "detail" kv = Some (JObj d) ∧ assoc "jobId" d = Some v) ∧
  fst (handler Demo.rt Demo.cfg Demo.no_faults Demo.null_detail_event Demo.w0)
  = Raised (AttributeError "'NoneType' object has no attribute 'get'").
Proof.
  split; [reflexivity|]. split; [|reflexivity].
  intros (kv & d & v & [= <-] & [=] & _).
Qed.

(** C10.  An event whose [detail] map holds a non-empty string under
    [jobId], whatever else it holds, a [Records] key included: the handler
    is the run of the job with that identifier under the [except] clause,
    and it never returns the [None] of the legacy branch. *)
Theorem job_id_takes_precedence rt cfg fl kv d s w :
  assoc "detail" kv = Some (JObj d) → assoc "jobId" d = Some (JStr s) → s ≠ "" →
  handler rt cfg fl (JObj kv) w =
    try_except (run_job rt cfg fl (JStr s))
      (λ e, log ERROR (msg_error (Some (JStr s)) e);; raise e)
      (add_log INFO (msg_received (JObj kv)) w) ∧
  fst (handler rt cfg fl (JObj kv) w) ≠ Done RNone.
Proof.
  intros Hd Hs Hne.
  pose proof (job_id_of_string kv d s Hd Hs) as Hjob.
  pose proof (py_truthy_string s Hne) as Htrue.
  split; [by apply handler_decoded|].
  destruct (handler rt cfg fl (JObj kv) w) as [res w1] eqn:Hrun. simpl. intros ->.
  pose proof Hrun as Hrun'.
  apply handler_done_inv in Hrun'
    as [(job_id & Hjob2 & Hfalse & _)
       |(job_id & pdf_bucket & body & pdf & imgs & Hjob2 & ? & ? & ? & ?)].
  - rewrite Hjob in Hjob2. injection Hjob2 as <-. congruence.
  - erewrite handler_ok in Hrun by done. discriminate Hrun.
Qed.

Lemma job_id_takes_precedence_witness :
  handler Demo.rt Demo.cfg Demo.no_faults Demo.event_with_records Demo.w0 =
    try_except (run_job Demo.rt Demo.cfg Demo.no_faults (JStr "abc123"))
      (λ e, log ERROR (msg_error (Some (JStr "abc123")) e);; raise e)
      (add_log INFO (msg_received Demo.event_with_records) Demo.w0) ∧
  fst (handler Demo.rt Demo.cfg Demo.no_faults Demo.event_with_records Demo.w0)
  ≠ Done RNone.
Proof.
  apply (job_id_takes_precedence Demo.rt Demo.cfg Demo.no_faults
           [("Records", JList []); ("detail", JObj [("jobId", JStr "abc123")])]
           [("jobId", JStr "abc123")] "abc123" Demo.w0).
  - reflexivity.
  - reflexivity.
  - discriminate.
Defined.

(** The legacy shape is what the event with a [Records] key falls into when
    it has no job identifier, and only then. *)
Example records_with_job_id_runs :
  dict_contains "Records" Demo.event_with_records = true ∧
  fst (handler Demo.rt Demo.cfg Demo.no_faults Demo.event_with_records Demo.w0)
  = Done (RDict {| ret_jobId := JStr "abc123"; ret_pages := 3; ret_status := "success" |}).
Proof. split; reflexivity. Qed.

(** ** Configuration *)

(** C6.  Without a bucket name ([S3_BUCKET_PDFS] unset or empty) the
    handler makes no external call at all, whatever the event: the list of
    calls, the bucket, the local disk and the published events are as
    before.  With a job identifier decoded, it raises
    [MissingConfiguration]. *)
Theorem missing_bucket_fails_first rt cfg fl event w :
  env_truthy (S3_BUCKET_PDFS cfg) = false →
  (∀ res w1, handler rt cfg fl event w = (res, w1) → quiet w w1) ∧
  (∀ job_id, job_id_of event = inr job_id → py_truthy job_id = true →
     ∃ w1, handler rt cfg fl event w = (Raised MissingConfiguration, w1) ∧ quiet w w1).
Proof.
  intros Hbucket. split.
  - intros res w1. unfold handler, dispatch, run_job, mbind, M_bind, log, try_except, raise.
    rewrite Hbucket. simpl.
    destruct (job_id_of event) as [e|job_id]; [by intros [= <- <-]|].
    destruct (py_truthy job_id); simpl; [by intros [= <- <-]|].
    destruct (dict_contains "Records" event); by intros [= <- <-].
  - intros job_id Hjob Htrue. eexists. split.
    + rewrite (handler_decoded _ _ _ _ job_id) by done.
      unfold try_except, run_job. rewrite Hbucket. simpl. reflexivity.
    + done.
Qed.

Lemma missing_bucket_fails_first_witness :
  quiet Demo.w0 (snd (handler Demo.rt Demo.cfg_no_bucket Demo.no_faults Demo.s3_event Demo.w0)) ∧
  ∃ w1, handler Demo.rt Demo.cfg_no_bucket Demo.no_faults Demo.event Demo.w0
        = (Raised MissingConfiguration, w1) ∧ quiet Demo.w0 w1.
Proof.
  split.
  - apply (proj1 (missing_bucket_fails_first Demo.rt Demo.cfg_no_bucket Demo.no_faults
                    Demo.s3_event Demo.w0 eq_refl) (Done RNone)).
    reflexivity.
  - apply (proj2 (missing_bucket_fails_first Demo.rt Demo.cfg_no_bucket Demo.no_faults
                    Demo.event Demo.w0 eq_refl) (JStr "abc123")).
    + reflexivity.
    + reflexivity.
Defined.

(** ** The document without pages *)

(** C4, as the code has it.  pypdfium2 refuses a document without pages
    ([open_checked]).  (1) For a source document in which pdfium finds no
    page, the download having gone through: the handler raises the
    [PdfiumError] of line 54; no image is uploaded and the bucket is as
    before, [put_events] is not called and nothing is published, and no dict
    is returned.  (2) In no run at all is a dict with [pages] 0 returned or
    an event with [pageCount] 0 published. *)
Theorem empty_document_refused rt load failure cfg fl event w :
  (∀ body, pdf_open rt body = open_checked load failure body) →
  (∀ job_id pdf_bucket body,
     job_id_of event = inr job_id → py_truthy job_id = true →
     S3_BUCKET_PDFS cfg = Some pdf_bucket → pdf_bucket ≠ "" →
     f_download fl pdf_bucket (input_key rt job_id) = None →
     s3 w !! (pdf_bucket, input_key rt job_id) = Some body →
     load body = inr [] →
     ∃ w1,
       handler rt cfg fl event w = (Raised (PdfiumError (failure body)), w1) ∧
       uploads (trace w1) = uploads (trace w) ∧
       s3 w1 = s3 w ∧
       publications (trace w1) = publications (trace w) ∧
       bus w1 = bus w) ∧
  (∀ res w1,
     handler rt cfg fl event w = (res, w1) →
     (∀ r, res = Done (RDict r) → 0 < ret_pages r) ∧
     ∃ new, bus w1 = bus w ++ new ∧
            ∀ entry, entry ∈ new → 0 < pageCount (Detail entry)).
Proof.
  intros Hrt. split.
  - intros job_id pdf_bucket body Hjob Htrue Hb Hne Hd Hs3 Hload. eexists. split.
    + apply (handler_open_fails _ _ _ _ job_id pdf_bucket body); try done.
      rewrite Hrt. unfold open_checked. by rewrite Hload.
    + unfold_world. rewrite !uploads_app, !publications_app. simpl.
      by rewrite !(right_id_L [] (++)).
  - intros res w1 Hrun. destruct res as [v|e].
    + pose proof Hrun as Hinv.
      apply handler_done_inv in Hinv
        as [(j & _ & _ & -> & (_ & _ & Hbus & _))
           |(j & b & body & pdf & imgs & Hj & Ht & Hopens & Hok & Hpub)].
      { split; [done|]. exists []. rewrite (right_id_L [] (++)).
        split; [done|]. by intros entry ?%elem_of_nil. }
      rewrite (handler_ok _ _ _ _ j b body pdf imgs) in Hrun by done.
      injection Hrun as <- <-.
      assert (0 < length pdf) as Hpages.
      { destruct Hopens as (_ & _ & _ & _ & Hopen). rewrite Hrt in Hopen.
        unfold open_checked in Hopen.
        destruct (load body) as [e|[|p pdf']]; try done.
        injection Hopen as <-. simpl. lia. }
      split; [by intros r [= <-]|].
      eexists. split; [reflexivity|]. unfold completion.
      destruct (env_truthy (EVENT_BUS_NAME cfg)).
      * by intros entry ->%list_elem_of_singleton.
      * by intros entry ?%elem_of_nil.
    + split; [done|]. exists []. rewrite (right_id_L [] (++)).
      split; [|by intros entry ?%elem_of_nil].
      destruct (job_id_of event) as [e'|j] eqn:Hjob.
      { rewrite (handler_no_dict _ _ _ _ e') in Hrun by done. by injection Hrun as _ <-. }
      destruct (py_truthy j) eqn:Htrue.
      * destruct (handler_run _ _ _ _ j _ _ _ Hjob Htrue Hrun)
          as (w2 & Hrun2 & _ & _ & Hbus1 & _).
        rewrite Hbus1.
        apply run_job_cases in Hrun2
          as [(_ & Hbus & _)|(b & body & pdf & imgs & _ & _ & Hc)]; [done|].
        rewrite complete_eq in Hc. simpl in Hc.
        destruct (env_truthy (EVENT_BUS_NAME cfg)); [destruct (f_publish fl)|].
        -- by injection Hc as _ <-.
        -- done.
        -- done.
      * unfold handler, dispatch, mbind, M_bind, log, try_except in Hrun.
        rewrite Hjob, Htrue in Hrun. simpl in Hrun.
        destruct (dict_contains "Records" event); by injection Hrun as _ <-.
Qed.

Lemma empty_document_refused_witness :
  (∃ w1,
     handler Demo.rt Demo.cfg Demo.no_faults Demo.event Demo.w_empty
     = (Raised Demo.refused, w1) ∧
     uploads (trace w1) = [] ∧
     s3 w1 = s3 Demo.w_empty ∧
     publications (trace w1) = [] ∧
     bus w1 = []) ∧
  (∀ r, Done Demo.success = Done (RDict r) → 0 < ret_pages r) ∧
  (∃ new, bus Demo.w1 = bus Demo.w0 ++ new ∧
          ∀ entry, entry ∈ new → 0 < pageCount (Detail entry)).
Proof.
  split.
  - apply (proj1 (empty_document_refused Demo.rt Demo.load Demo.failure
                    Demo.cfg Demo.no_faults Demo.event Demo.w_empty
                    (λ body, eq_refl)) (JStr "abc123") "docs" Demo.no_pages).
    + reflexivity.
    + reflexivity.
    + reflexivity.
    + discriminate.
    + reflexivity.
    + reflexivity.
    + reflexivity.
  - apply (proj2 (empty_document_refused Demo.rt Demo.load Demo.failure
                    Demo.cfg Demo.no_faults Demo.event Demo.w0
                    (λ body, eq_refl)) (Done Demo.success) Demo.w1).
    vm_compute. reflexivity.
Defined.

(** A source document with zero pages, an event bus being configured and
    nothing else going wrong: the handler returns no success dict and
    publishes nothing, it raises the [PdfiumError] of line 54. *)
Lemma empty_document_returns_no_dict :
  Demo.load Demo.no_pages = inr [] ∧
  EVENT_BUS_NAME Demo.cfg = Some "bus1" ∧
  ∃ msg w1,
    handler Demo.rt Demo.cfg Demo.no_faults Demo.event Demo.w_empty
    = (Raised (PdfiumError msg), w1) ∧
    bus w1 = [] ∧ publications (trace w1) = [] ∧ uploads (trace w1) = [].
Proof.
  split; [reflexivity|]. split; [reflexivity|].
  eexists _, _. split; [vm_compute; reflexivity|]. by vm_compute.
Qed.

(** ** Runs in which nothing goes wrong *)

(** C7.  Without an event bus ([EVENT_BUS_NAME] unset or empty), in a run in
    which every page is rendered and uploaded: [put_events] is not called
    and nothing is published, a warning is logged, every page is uploaded,
    and the handler returns [{"jobId": jobId, "pages": N, "status":
    "success"}]. *)
Theorem no_bus_still_succeeds rt cfg fl event job_id pdf_bucket body pdf imgs w :
  job_id_of event = inr job_id → py_truthy job_id = true →
  opens rt cfg fl w job_id pdf_bucket body pdf →
  pages_ok rt fl job_id pdf_bucket 0 pdf imgs →
  env_truthy (EVENT_BUS_NAME cfg) = false →
  ∃ w1,
    handler rt cfg fl event w =
      (Done (RDict {| ret_jobId := job_id; ret_pages := length pdf;
                      ret_status := "success" |}), w1) ∧
    bus w1 = bus w ∧
    publications (trace w1) = publications (trace w) ∧
    uploads (trace w1) = uploads (trace w) ++
      ((λ k, (pdf_bucket, output_key rt job_id k)) <$> seq 0 (length pdf)) ∧
    last (logs w1) = Some (WARNING, msg_no_bus).
Proof.
  intros Hjob Htrue Hopens Hok Hbus. eexists.
  split; [eapply handler_ok; try done; by rewrite Hbus|].
  unfold finished, completion. cbn [trace s3 bus logs]. rewrite Hbus. split_and!.
  - by rewrite (right_id_L [] (++)).
  - rewrite !publications_app, publications_pages_events. simpl.
    by rewrite (right_id_L [] (++)).
  - rewrite !uploads_app, uploads_pages_events. simpl.
    by rewrite (right_id_L [] (++)).
  - by rewrite last_app.
Qed.

Lemma no_bus_still_succeeds_witness :
  ∃ w1,
    handler Demo.rt Demo.cfg_no_bus Demo.no_faults Demo.event Demo.w0 =
      (Done (RDict {| ret_jobId := JStr "abc123"; ret_pages := 3;
                      ret_status := "success" |}), w1) ∧
    bus w1 = [] ∧
    publications (trace w1) = [] ∧
    uploads (trace w1) =
      (λ k, ("docs", output_key Demo.rt (JStr "abc123") k)) <$> seq 0 3 ∧
    last (logs w1) = Some (WARNING, msg_no_bus).
Proof.
  apply (no_bus_still_succeeds Demo.rt Demo.cfg_no_bus Demo.no_faults Demo.event
           (JStr "abc123") "docs" Demo.three_pages ["first"; "second"; "third"]
           ["PNG first x2"; "PNG second x2"; "PNG third x2"] Demo.w0).
  - reflexivity.
  - reflexivity.
  - unfold opens. split_and!; [reflexivity|discriminate|reflexivity..].
  - simpl. split_and!; reflexivity.
  - reflexivity.
Defined.

(** ** Scratch files *)

(** C5.  With a job identifier and a bucket: (1) in any run, whatever
    fails, the scratch image of a page is removed if and only if the upload
    of that page went through; (2) if the upload of the page after [pre]
    raises [e], the handler raises that same [e], the scratch image of that
    page is not removed and is still on the local disk, while those of the
    pages before it are gone. *)
Theorem scratch_image_removed_iff_uploaded rt cfg fl event job_id pdf_bucket w :
  job_id_of event = inr job_id → py_truthy job_id = true →
  S3_BUCKET_PDFS cfg = Some pdf_bucket →
  (∀ res w1,
     handler rt cfg fl event w = (res, w1) →
     ∃ delta,
       trace w1 = trace w ++ delta ∧
       ∀ i, (os_remove (local_img rt job_id i) ∈ delta) ↔
            (s3_upload (local_img rt job_id i) pdf_bucket (output_key rt job_id i) true
               ∈ delta)) ∧
  (∀ body pre p post imgs img e,
     opens rt cfg fl w job_id pdf_bucket body (pre ++ p :: post) →
     pages_ok rt fl job_id pdf_bucket 0 pre imgs →
     render rt p 2 = inr img →
     f_save fl (local_img rt job_id (length pre)) = None →
     f_upload fl pdf_bucket (output_key rt job_id (length pre)) = Some e →
     ∃ w1 delta,
       handler rt cfg fl event w = (Raised e, w1) ∧
       trace w1 = trace w ++ delta ∧
       (os_remove (local_img rt job_id (length pre)) ∉ delta) ∧
       fs w1 !! local_img rt job_id (length pre) = Some img ∧
       (∀ i, i < length pre → fs w1 !! local_img rt job_id i = None)).
Proof.
  intros Hjob Htrue Hb. split.
  - intros res w1 (w2 & Hrun & _ & _ & _ & Ht)%(handler_run _ _ _ _ job_id); [|done..].
    rewrite Ht. by apply (tracks_run_job _ _ _ _ pdf_bucket Hb) in Hrun.
  - intros body pre p post imgs img e Hopens Hok Hr Hs Hu.
    pose proof (pages_ok_length _ _ _ _ _ _ _ Hok) as Hlen.
    eexists _, _. split; [by eapply handler_upload_fails|].
    unfold upload_failed. cbn [trace fs]. split_and!.
    + done.
    + rewrite !elem_of_app, !elem_of_cons, elem_of_nil, pages_events_remove.
      intros [[?|[?|?]]|[?|[?|[?|[?|?]]]]]; try done. lia.
    + rewrite Hlen. apply lookup_insert_eq.
    + intros i Hi. rewrite Hlen, lookup_insert_ne.
      * apply sweep_lookup. lia.
      * intros E%local_img_inj. lia.
Qed.

Lemma scratch_image_removed_iff_uploaded_witness :
  (∃ delta,
     trace (snd (handler Demo.rt Demo.cfg Demo.second_upload_fails Demo.event Demo.w0))
     = trace Demo.w0 ++ delta ∧
     ∀ i, (os_remove (local_img Demo.rt (JStr "abc123") i) ∈ delta) ↔
          (s3_upload (local_img Demo.rt (JStr "abc123") i) "docs"
             (output_key Demo.rt (JStr "abc123") i) true ∈ delta)) ∧
  (∃ w1 delta,
     handler Demo.rt Demo.cfg Demo.second_upload_fails Demo.event Demo.w0
     = (Raised Demo.throttled, w1) ∧
     trace w1 = trace Demo.w0 ++ delta ∧
     (os_remove (local_img Demo.rt (JStr "abc123") 1) ∉ delta) ∧
     fs w1 !! local_img Demo.rt (JStr "abc123") 1 = Some "PNG second x2" ∧
     (∀ i, i < 1 → fs w1 !! local_img Demo.rt (JStr "abc123") i = None)).
Proof.
  split.
  - apply (proj1 (scratch_image_removed_iff_uploaded Demo.rt Demo.cfg
                    Demo.second_upload_fails Demo.event (JStr "abc123") "docs" Demo.w0
                    eq_refl eq_refl eq_refl) (Raised Demo.throttled)).
    vm_compute. reflexivity.
  - apply (proj2 (scratch_image_removed_iff_uploaded Demo.rt Demo.cfg
                    Demo.second_upload_fails Demo.event (JStr "abc123") "docs" Demo.w0
                    eq_refl eq_refl eq_refl) Demo.three_pages ["first"] "second" ["third"]
                 ["PNG first x2"] "PNG second x2" Demo.throttled).
    + unfold opens. split_and!; [reflexivity|discriminate|reflexivity..].
    + simpl. split_and!; reflexivity.
    + reflexivity.
    + reflexivity.
    + reflexivity.
Defined.

(** ** Running the job again *)

(** C9.  Two invocations with the same event that both return, the second
    finding the source document as the first found it, under fault plans
    that may differ.  The first leaves the source document in place.  The
    two return the same value and make the same uploads, the same keys in
    the same order, and every key uploaded holds the same content after the
    second as after the first; when the second starts from the bucket the
    first left, it leaves that bucket exactly as it was.  The keys are
    functions of the job identifier and the page index, and [render] is
    applied to the same pages at scale 2. *)
Theorem rerun_overwrites_same_keys rt cfg fl1 fl2 event job_id pdf_bucket w0 v1 w1 :
  job_id_of event = inr job_id →
  S3_BUCKET_PDFS cfg = Some pdf_bucket →
  handler rt cfg fl1 event w0 = (Done v1, w1) →
  s3 w1 !! (pdf_bucket, input_key rt job_id) = s3 w0 !! (pdf_bucket, input_key rt job_id) ∧
  ∀ wA v2 w2,
    handler rt cfg fl2 event wA = (Done v2, w2) →
    s3 wA !! (pdf_bucket, input_key rt job_id)
    = s3 w0 !! (pdf_bucket, input_key rt job_id) →
    v2 = v1 ∧
    (∃ ups, uploads (trace w1) = uploads (trace w0) ++ ups ∧
            uploads (trace w2) = uploads (trace wA) ++ ups ∧
            ∀ κ, κ ∈ ups → s3 w2 !! κ = s3 w1 !! κ) ∧
    (s3 wA = s3 w1 → s3 w2 = s3 w1).
Proof.
  intros Hjob Hb Hrun1. pose proof Hrun1 as Hinv1.
  apply handler_done_inv in Hinv1
    as [(j1 & Hj1 & Hf1 & -> & (Hs1 & _ & _ & Ht1))
       |(j1 & b1 & body1 & pdf1 & imgs1 & Hj1 & Htrue1 & Hopens1 & Hok1 & Hpub1)];
    rewrite Hjob in Hj1; injection Hj1 as <-.
  - split; [by rewrite Hs1|]. intros wA v2 w2 Hrun2 _.
    apply handler_done_inv in Hrun2
      as [(j2 & Hj2 & Hf2 & -> & (Hs2 & _ & _ & Ht2))
         |(j2 & b2 & body2 & pdf2 & imgs2 & Hj2 & Htrue2 & _)];
      rewrite Hjob in Hj2; injection Hj2 as <-; [|congruence].
    split_and!; [done| |congruence].
    exists []. rewrite Ht1, Ht2, !(right_id_L [] (++)). split_and!; [done..|].
    intros κ []%elem_of_nil.
  - rewrite (handler_ok _ _ _ _ job_id b1 body1 pdf1 imgs1) in Hrun1 by done.
    injection Hrun1 as <- <-.
    destruct Hopens1 as (Hb1 & _ & _ & Hs1 & Ho1).
    rewrite Hb in Hb1. injection Hb1 as <-.
    assert (∀ m, store_pages rt job_id pdf_bucket 0 imgs1 m
                   !! (pdf_bucket, input_key rt job_id)
                 = m !! (pdf_bucket, input_key rt job_id)) as Hsource.
    { intros m. apply store_pages_lookup_other.
      intros k _ [= E]. by destruct (input_key_ne_output rt job_id k). }
    unfold finished at 1. cbn [s3]. split; [apply Hsource|].
    intros wA v2 w2 Hrun2 Hsame. pose proof Hrun2 as Hinv2.
    apply handler_done_inv in Hinv2
      as [(j2 & Hj2 & Hf2 & _)
         |(j2 & b2 & body2 & pdf2 & imgs2 & Hj2 & _ & Hopens2 & Hok2 & Hpub2)];
      rewrite Hjob in Hj2; injection Hj2 as <-; [congruence|].
    pose proof Hopens2 as (Hb2 & _ & _ & Hs2 & Ho2).
    rewrite Hb in Hb2. injection Hb2 as <-.
    assert (body2 = body1) as -> by congruence.
    assert (pdf2 = pdf1) as -> by congruence.
    assert (imgs2 = imgs1) as -> by eauto using pages_ok_images.
    rewrite (handler_ok _ _ _ _ job_id pdf_bucket body1 pdf1 imgs1) in Hrun2 by done.
    injection Hrun2 as <- <-.
    pose proof (pages_ok_length _ _ _ _ _ _ _ Hok1) as Hlen.
    unfold finished. cbn [trace s3]. split_and!.
    + done.
    + exists ((λ k, (pdf_bucket, output_key rt job_id k)) <$> seq 0 (length pdf1)).
      rewrite !uploads_app, !uploads_pages_events, !uploads_completion. simpl.
      rewrite !(right_id_L [] (++)). split_and!; [done..|].
      intros κ (k & -> & [_ Hk]%elem_of_seq)%list_elem_of_fmap.
      destruct (lookup_lt_is_Some_2 imgs1 k) as [img Himg]; [lia|].
      by rewrite !(store_pages_lookup _ _ _ 0 imgs1 k img).
    + intros ->. apply store_pages_idemp.
Qed.

Lemma rerun_overwrites_same_keys_witness :
  s3 Demo.w1 !! ("docs", input_key Demo.rt (JStr "abc123"))
  = s3 Demo.w0 !! ("docs", input_key Demo.rt (JStr "abc123")) ∧
  Demo.success = Demo.success ∧
  (∃ ups, uploads (trace Demo.w1) = uploads (trace Demo.w0) ++ ups ∧
          uploads (trace Demo.w2) = uploads (trace Demo.w1) ++ ups ∧
          ∀ κ, κ ∈ ups → s3 Demo.w2 !! κ = s3 Demo.w1 !! κ) ∧
  (s3 Demo.w1 = s3 Demo.w1 → s3 Demo.w2 = s3 Demo.w1).
Proof.
  destruct (rerun_overwrites_same_keys Demo.rt Demo.cfg Demo.no_faults Demo.no_faults
              Demo.event (JStr "abc123") "docs" Demo.w0 Demo.success Demo.w1)
    as [Hsource Hagain].
  - reflexivity.
  - reflexivity.
  - vm_compute. reflexivity.
  - split; [exact Hsource|].
    apply (Hagain Demo.w1 Demo.success Demo.w2).
    + vm_compute. reflexivity.
    + exact Hsource.
Defined.

(** * Further properties of the handler *)

(** ** Any run of the loop, of the job, of the handler *)

Lemma store_pages_is_Some rt job_id pdf_bucket i imgs m κ :
  is_Some (m !! κ) → is_Some (store_pages rt job_id pdf_bucket i imgs m !! κ).
Proof.
  revert i m. induction imgs as [|img imgs IH]; intros i m Hκ; simpl; [done|].
  apply IH. rewrite lookup_insert_is_Some. destruct (decide ((pdf_bucket, output_key rt job_id i) = κ)); auto.
Qed.

(** Putting images again over a first part of them already put gives what
    putting them once gives. *)
Lemma store_pages_absorb rt job_id pdf_bucket i imgs k m :
  store_pages rt job_id pdf_bucket i imgs
    (store_pages rt job_id pdf_bucket i (take k imgs) m)
  = store_pages rt job_id pdf_bucket i imgs m.
Proof.
  revert i k m. induction imgs as [|img imgs IH]; intros i [|k] m; simpl; try done.
  rewrite (store_pages_insert _ _ _ (S i) (take k imgs))
    by (intros j ?; apply output_key_later; lia).
  rewrite insert_insert_eq.
  rewrite <- (store_pages_insert _ _ _ (S i) (take k imgs))
    by (intros j ?; apply output_key_later; lia).
  apply IH.
Qed.

(** The images of a first part of the pages are a first part of the
    images of all of them, whatever the fault plans. *)
Lemma pages_ok_take_images rt fl1 fl2 job_id pdf_bucket i k pages imgs1 imgs2 :
  pages_ok rt fl1 job_id pdf_bucket i (take k pages) imgs1 →
  pages_ok rt fl2 job_id pdf_bucket i pages imgs2 →
  imgs1 = take k imgs2.
Proof.
  revert i k imgs1 imgs2.
  induction pages as [|p pages IH]; intros i [|k] [|img1 imgs1] [|img2 imgs2]; simpl;
    try done.
  intros (Hr1 & _ & _ & Hok1) (Hr2 & _ & _ & Hok2).
  rewrite Hr1 in Hr2. injection Hr2 as <-. f_equal. eauto.
Qed.

(** Whatever happens in the loop: the bucket received the images of a first
    part of the pages, which went through, and on the local disk only
    scratch images of the job changed. *)
Lemma process_pages_any rt fl job_id pdf_bucket i pages output_keys w res w1 :
  process_pages rt fl job_id pdf_bucket i pages output_keys w = (res, w1) →
  ∃ k imgs,
    pages_ok rt fl job_id pdf_bucket i (take k pages) imgs ∧
    s3 w1 = store_pages rt job_id pdf_bucket i imgs (s3 w) ∧
    (∀ p, (∀ j, p ≠ local_img rt job_id j) → fs w1 !! p = fs w !! p).
Proof.
  revert i output_keys w. induction pages as [|p pages IH]; intros i output_keys w; simpl.
  { intros [= <- <-]. by exists 0, []. }
  unfold mbind, M_bind. rewrite process_page_eq.
  destruct (render rt p 2) as [e|img] eqn:Hr.
  { intros [= <- <-]. by exists 0, []. }
  simpl. destruct (f_save fl (local_img rt job_id i)) as [e|] eqn:Hs.
  { intros [= <- <-]. by exists 0, []. }
  destruct (f_upload fl pdf_bucket (output_key rt job_id i)) as [e|] eqn:Hu.
  { intros [= <- <-]. exists 0, []. split_and!; [done..|].
    intros q Hq. simpl. by apply lookup_insert_ne, not_eq_sym. }
  intros (k & imgs & Hok & Hs3 & Hfs)%IH. exists (S k), (img :: imgs). split_and!.
  - simpl. by rewrite Hr, Hs, Hu.
  - done.
  - intros q Hq. rewrite Hfs by done. simpl. by apply lookup_delete_ne, not_eq_sym.
Qed.

(** What the last stage changes. *)
Lemma complete_any rt cfg fl job_id n output_keys w res w1 :
  complete rt cfg fl job_id n output_keys w = (res, w1) →
  s3 w1 = s3 w ∧
  (∀ p, p ≠ local_pdf rt job_id → fs w1 !! p = fs w !! p) ∧
  (∀ e, res = Raised e → fs w1 = fs w ∧ bus w1 = bus w) ∧
  (∀ v, res = Done v →
     v = RDict {| ret_jobId := job_id; ret_pages := n; ret_status := "success" |} ∧
     fs w1 !! local_pdf rt job_id = None ∧
     bus w1 = bus w ++ completion rt cfg job_id n).
Proof.
  rewrite complete_eq. unfold completion. simpl.
  destruct (env_truthy (EVENT_BUS_NAME cfg)); [destruct (f_publish fl) as [e|]|].
  - intros [= <- <-]. by split_and!.
  - destruct (fs w !! local_pdf rt job_id) eqn:Hpdf; intros [= <- <-]; simpl;
      (split_and!; [done| |done|]).
    + intros p Hp. by apply lookup_delete_ne, not_eq_sym.
    + intros v [= <-]. split_and!; [done| |done]. apply lookup_delete_eq.
    + done.
    + by intros v [= <-].
  - destruct (fs w !! local_pdf rt job_id) eqn:Hpdf; intros [= <- <-]; simpl;
      (split_and!; [done| |done|]).
    + intros p Hp. by apply lookup_delete_ne, not_eq_sym.
    + intros v [= <-]. split_and!; [done| |by rewrite (right_id_L [] (++))].
      apply lookup_delete_eq.
    + done.
    + intros v [= <-]. by rewrite (right_id_L [] (++)).
Qed.

(** Whatever happens in a run of the job: the bucket received the images of
    a first part of the pages of the source document, and on the local disk
    only the job's own files changed. *)
Lemma run_job_any rt cfg fl job_id pdf_bucket w res w1 :
  S3_BUCKET_PDFS cfg = Some pdf_bucket →
  run_job rt cfg fl job_id w = (res, w1) →
  ∃ k imgs,
    s3 w1 = store_pages rt job_id pdf_bucket 0 imgs (s3 w) ∧
    (∀ body pdf,
       s3 w !! (pdf_bucket, input_key rt job_id) = Some body → pdf_open rt body = inr pdf →
       pages_ok rt fl job_id pdf_bucket 0 (take k pdf) imgs) ∧
    (∀ p, p ≠ local_pdf rt job_id → (∀ j, p ≠ local_img rt job_id j) →
          fs w1 !! p = fs w !! p).
Proof.
  intros Hb.
  destruct (env_truthy (S3_BUCKET_PDFS cfg)) eqn:Hbucket.
  2:{ unfold run_job. rewrite Hbucket. intros [= <- <-]. by exists 0, []. }
  pose proof Hbucket as (b & Hb' & Hne)%env_truthy_true.
  rewrite Hb in Hb'. injection Hb' as <-.
  destruct (f_download fl pdf_bucket (input_key rt job_id)) as [e|] eqn:Hd.
  { unfold run_job. rewrite Hbucket, Hb. simpl.
    unfold mbind at 1 2, M_bind at 1 2, log, try_except, download_file. simpl.
    rewrite Hd. intros [= <- <-]. by exists 0, []. }
  destruct (s3 w !! (pdf_bucket, input_key rt job_id)) as [body|] eqn:Hs3.
  2:{ unfold run_job. rewrite Hbucket, Hb. simpl.
    unfold mbind at 1 2, M_bind at 1 2, log, try_except, download_file. simpl.
    rewrite Hd, Hs3. intros [= <- <-]. by exists 0, []. }
  destruct (pdf_open rt body) as [e|pdf] eqn:Hopen.
  { unfold run_job. rewrite Hbucket, Hb. simpl.
    unfold mbind at 1 2 3 4, M_bind at 1 2 3 4, log, try_except, download_file, PdfDocument.
    simpl. rewrite Hd, Hs3. simpl. rewrite lookup_insert_eq, Hopen.
    intros [= <- <-]. exists 0, []. split_and!; [done..|].
    intros p Hp _. simpl. by apply lookup_insert_ne, not_eq_sym. }
  rewrite (run_job_opened _ _ _ _ pdf_bucket body pdf) by done.
  assert (∀ k imgs,
    pages_ok rt fl job_id pdf_bucket 0 (take k pdf) imgs →
    ∀ body' pdf', Some body = Some body' → pdf_open rt body' = inr pdf' →
    pages_ok rt fl job_id pdf_bucket 0 (take k pdf') imgs) as Hdoc.
  { intros k imgs Hok body' pdf' [= <-] Hopen'. congruence. }
  intros [(output_keys & w2 & Hloop & Hdone)|(e & Hloop & ->)]%bind_inv.
  - apply process_pages_any in Hloop as (k & imgs & Hok & Hs3' & Hfs).
    apply complete_any in Hdone as (Hs3'' & Hfs' & _).
    exists k, imgs. split_and!.
    + by rewrite Hs3'', Hs3'.
    + by apply Hdoc.
    + intros p Hp Himg. rewrite Hfs', Hfs by done. simpl. by apply lookup_insert_ne, not_eq_sym.
  - apply process_pages_any in Hloop as (k & imgs & Hok & Hs3' & Hfs).
    exists k, imgs. split_and!.
    + done.
    + by apply Hdoc.
    + intros p Hp Himg. rewrite Hfs by done. simpl. by apply lookup_insert_ne, not_eq_sym.
Qed.

Lemma handler_any rt cfg fl event job_id pdf_bucket w res w1 :
  job_id_of event = inr job_id → py_truthy job_id = true →
  S3_BUCKET_PDFS cfg = Some pdf_bucket →
  handler rt cfg fl event w = (res, w1) →
  ∃ k imgs,
    s3 w1 = store_pages rt job_id pdf_bucket 0 imgs (s3 w) ∧
    (∀ body pdf,
       s3 w !! (pdf_bucket, input_key rt job_id) = Some body → pdf_open rt body = inr pdf →
       pages_ok rt fl job_id pdf_bucket 0 (take k pdf) imgs) ∧
    (∀ p, p ≠ local_pdf rt job_id → (∀ j, p ≠ local_img rt job_id j) →
          fs w1 !! p = fs w !! p).
Proof.
  intros Hjob Htrue Hb (w2 & Hrun & Hs3 & Hfs & _)%(handler_run _ _ _ _ job_id); [|done..].
  apply (run_job_any _ _ _ _ pdf_bucket) in Hrun as (k & imgs & ? & ? & ?); [|done].
  exists k, imgs. rewrite Hs3, Hfs. by split_and!.
Qed.

(** The handler with no usable job identifier: lines 22 to 30. *)
Lemma handler_no_job rt cfg fl event job_id w :
  job_id_of event = inr job_id → py_truthy job_id = false →
  handler rt cfg fl event w =
  if dict_contains "Records" event
  then (Done RNone, add_log WARNING msg_s3_event (add_log INFO (msg_received event) w))
  else (Raised InvalidTriggerPayload,
        add_log ERROR (msg_error (Some job_id) InvalidTriggerPayload)
          (add_log INFO (msg_received event) w)).
Proof.
  intros Hjob Hfalse. unfold handler, dispatch, mbind, M_bind, log, try_except.
  rewrite Hjob, Hfalse. simpl. by destruct (dict_contains "Records" event).
Qed.

(** ** What a run leaves alone *)

(** X1.  Whatever happens in a run for a job, the bucket changes only under
    the output keys of that job and no object is deleted; in particular the
    source document is as it was. *)
Theorem bucket_changes_only_at_output_keys rt cfg fl event job_id pdf_bucket w res w1 :
  job_id_of event = inr job_id → py_truthy job_id = true →
  S3_BUCKET_PDFS cfg = Some pdf_bucket →
  handler rt cfg fl event w = (res, w1) →
  (∀ κ, (∀ k, κ ≠ (pdf_bucket, output_key rt job_id k)) → s3 w1 !! κ = s3 w !! κ) ∧
  (∀ κ, is_Some (s3 w !! κ) → is_Some (s3 w1 !! κ)) ∧
  s3 w1 !! (pdf_bucket, input_key rt job_id) = s3 w !! (pdf_bucket, input_key rt job_id).
Proof.
  intros Hjob Htrue Hb (k & imgs & -> & _)%(handler_any _ _ _ _ job_id pdf_bucket); [|done..].
  split_and!.
  - intros κ Hκ. apply store_pages_lookup_other. auto.
  - intros κ. apply store_pages_is_Some.
  - apply store_pages_lookup_other.
    intros j _ [= E]. by destruct (input_key_ne_output rt job_id j).
Qed.

Lemma bucket_changes_only_at_output_keys_witness :
  (∀ κ, (∀ k, κ ≠ ("docs", output_key Demo.rt (JStr "abc123") k)) →
        s3 Cases.w_failed !! κ = s3 Demo.w0 !! κ) ∧
  (∀ κ, is_Some (s3 Demo.w0 !! κ) → is_Some (s3 Cases.w_failed !! κ)) ∧
  s3 Cases.w_failed !! ("docs", input_key Demo.rt (JStr "abc123"))
  = s3 Demo.w0 !! ("docs", input_key Demo.rt (JStr "abc123")).
Proof.
  apply (bucket_changes_only_at_output_keys Demo.rt Demo.cfg Demo.second_upload_fails
           Demo.event (JStr "abc123") "docs" Demo.w0 (Raised Demo.throttled)).
  - reflexivity.
  - reflexivity.
  - reflexivity.
  - vm_compute. reflexivity.
Defined.

(** X2.  Whatever happens in a run for a job, the only files of the local
    disk that change are the local PDF and the scratch images of that
    job. *)
Theorem disk_changes_only_at_job_files rt cfg fl event job_id pdf_bucket w res w1 :
  job_id_of event = inr job_id → py_truthy job_id = true →
  S3_BUCKET_PDFS cfg = Some pdf_bucket →
  handler rt cfg fl event w = (res, w1) →
  ∀ p, p ≠ local_pdf rt job_id → (∀ i, p ≠ local_img rt job_id i) →
       fs w1 !! p = fs w !! p.
Proof.
  intros Hjob Htrue Hb (k & imgs & _ & _ & Hfs)%(handler_any _ _ _ _ job_id pdf_bucket);
    [|done..].
  exact Hfs.
Qed.

Lemma disk_changes_only_at_job_files_witness :
  fs (snd (handler Demo.rt Demo.cfg Demo.no_faults Demo.event Cases.w_shared))
    !! "/tmp/zzz_original.pdf"
  = fs Cases.w_shared !! "/tmp/zzz_original.pdf".
Proof.
  apply (disk_changes_only_at_job_files Demo.rt Demo.cfg Demo.no_faults Demo.event
           (JStr "abc123") "docs" Cases.w_shared (Done Demo.success)).
  - reflexivity.
  - reflexivity.
  - reflexivity.
  - vm_compute. reflexivity.
  - intros E. vm_compute in E. discriminate E.
  - intros i E. vm_compute in E. discriminate E.
Defined.

(** X3.  When the handler returns its dict, no scratch file of the job is
    left: neither the local PDF nor the image of any page. *)
Theorem success_leaves_no_scratch_file rt cfg fl event w r w1 :
  handler rt cfg fl event w = (Done (RDict r), w1) →
  fs w1 !! local_pdf rt (ret_jobId r) = None ∧
  ∀ i, i < ret_pages r → fs w1 !! local_img rt (ret_jobId r) i = None.
Proof.
  intros Hrun. pose proof Hrun as Hinv.
  apply handler_done_inv in Hinv
    as [(j & _ & _ & [=] & _)|(j & b & body & pdf & imgs & Hj & Ht & Hopens & Hok & Hpub)].
  rewrite (handler_ok _ _ _ _ j b body pdf imgs) in Hrun by done.
  injection Hrun as <- <-. simpl. split.
  - apply lookup_delete_eq.
  - intros i Hi. rewrite lookup_delete_ne by apply local_pdf_ne_img.
    apply sweep_lookup. rewrite (pages_ok_length _ _ _ _ _ _ _ Hok). lia.
Qed.

Lemma success_leaves_no_scratch_file_witness :
  fs Demo.w1 !! local_pdf Demo.rt (JStr "abc123") = None ∧
  ∀ i, i < 3 → fs Demo.w1 !! local_img Demo.rt (JStr "abc123") i = None.
Proof.
  apply (success_leaves_no_scratch_file Demo.rt Demo.cfg Demo.no_faults Demo.event Demo.w0
           {| ret_jobId := JStr "abc123"; ret_pages := 3; ret_status := "success" |}).
  vm_compute. reflexivity.
Defined.

(** ** Retrying *)

(** X4.  A failed invocation followed by one that returns, on the same
    event: the second returns what an invocation from the start would have
    returned, and the bucket ends as that invocation would have left it.
    The images a failed run has already put are overwritten with the same
    content. *)
Theorem retry_repairs rt cfg fl1 fl2 event w0 e w1 v w2 :
  handler rt cfg fl1 event w0 = (Raised e, w1) →
  handler rt cfg fl2 event w1 = (Done v, w2) →
  ∃ w2', handler rt cfg fl2 event w0 = (Done v, w2') ∧ s3 w2 = s3 w2'.
Proof.
  intros Hrun1 Hrun2. pose proof Hrun2 as Hinv.
  apply handler_done_inv in Hinv
    as [(j & Hj & Hf & _)|(j & b & body & pdf & imgs & Hj & Ht & Hopens & Hok & Hpub)].
  { rewrite (handler_no_job _ _ _ _ j) in Hrun1 by done.
    rewrite (handler_no_job _ _ _ _ j) in Hrun2 by done.
    destruct (dict_contains "Records" event); done. }
  destruct Hopens as (Hb & Hne & Hd & Hs3 & Hopen).
  apply (handler_any _ _ _ _ j b) in Hrun1 as (k & imgs1 & Hw1 & Hdoc & _); [|done..].
  assert (s3 w0 !! (b, input_key rt j) = Some body) as Hs0.
  { rewrite Hw1, store_pages_lookup_other in Hs3; [done|].
    intros i _ [= E]. by destruct (input_key_ne_output rt j i). }
  assert (imgs1 = take k imgs) as ->
    by eauto using pages_ok_take_images.
  assert (opens rt cfg fl2 w0 j b body pdf) as Hopens0 by (unfold opens; by split_and!).
  assert (opens rt cfg fl2 w1 j b body pdf) as Hopens1 by (unfold opens; by split_and!).
  rewrite (handler_ok _ _ _ _ j b body pdf imgs) in Hrun2 by done.
  injection Hrun2 as <- <-.
  eexists. split; [by apply (handler_ok _ _ _ _ j b body pdf imgs)|].
  simpl. rewrite Hw1. apply store_pages_absorb.
Qed.

Lemma retry_repairs_witness :
  ∃ w2', handler Demo.rt Demo.cfg Demo.no_faults Demo.event Demo.w0 = (Done Demo.success, w2') ∧
         s3 Cases.w_retried = s3 w2'.
Proof.
  apply (retry_repairs Demo.rt Demo.cfg Demo.second_upload_fails Demo.no_faults Demo.event
           Demo.w0 Demo.throttled Cases.w_failed).
  - vm_compute. reflexivity.
  - vm_compute. reflexivity.
Defined.

(** ** Runs that fail *)

(** The loop raising makes the handler raise, after the record of the
    outer [except] clause. *)
Lemma handler_loop_raises rt cfg fl event job_id pdf_bucket body pdf e w w2 :
  job_id_of event = inr job_id → py_truthy job_id = true →
  opens rt cfg fl w job_id pdf_bucket body pdf →
  process_pages rt fl job_id pdf_bucket 0 pdf []
    (opened rt job_id pdf_bucket body pdf (add_log INFO (msg_received event) w))
  = (Raised e, w2) →
  handler rt cfg fl event w = (Raised e, add_log ERROR (msg_error (Some job_id) e) w2).
Proof.
  intros Hjob Htrue Hopens Hloop.
  rewrite (handler_decoded _ _ _ _ job_id) by done. unfold try_except.
  rewrite (run_job_opened _ _ _ _ pdf_bucket body pdf) by done.
  by erewrite bind_raised.
Qed.

Lemma process_pages_render_fails rt fl job_id pdf_bucket i pre p post imgs e output_keys w :
  pages_ok rt fl job_id pdf_bucket i pre imgs →
  render rt p 2 = inl e →
  process_pages rt fl job_id pdf_bucket i (pre ++ p :: post) output_keys w =
  (Raised e, add_io (page_render (i + length pre) 2 false)
               (pages_done rt job_id pdf_bucket i imgs w)).
Proof.
  intros Hok Hr. rewrite process_pages_app, (process_pages_ok _ _ _ _ _ _ imgs) by done.
  simpl. erewrite bind_raised; [done|]. by rewrite process_page_eq, Hr.
Qed.

Lemma process_pages_save_fails rt fl job_id pdf_bucket i pre p post imgs img e
    output_keys w :
  pages_ok rt fl job_id pdf_bucket i pre imgs →
  render rt p 2 = inr img →
  f_save fl (local_img rt job_id (i + length pre)) = Some e →
  process_pages rt fl job_id pdf_bucket i (pre ++ p :: post) output_keys w =
  (Raised e, add_io (img_save (local_img rt job_id (i + length pre)) false)
               (add_io (page_render (i + length pre) 2 true)
                  (pages_done rt job_id pdf_bucket i imgs w))).
Proof.
  intros Hok Hr Hs. rewrite process_pages_app, (process_pages_ok _ _ _ _ _ _ imgs) by done.
  simpl. erewrite bind_raised; [done|]. rewrite process_page_eq, Hr. simpl. by rewrite Hs.
Qed.

(** X5.  If the download raises [e], because of a fault or because the
    source object is not there, the handler raises [e]; the failed download
    is the only call made, bucket, disk and bus are as before, and the
    failure is logged twice, by the inner and by the outer [except]
    clause. *)
Theorem download_failure_aborts rt cfg fl event job_id pdf_bucket e w :
  job_id_of event = inr job_id → py_truthy job_id = true →
  S3_BUCKET_PDFS cfg = Some pdf_bucket → pdf_bucket ≠ "" →
  (f_download fl pdf_bucket (input_key rt job_id) = Some e ∨
   (f_download fl pdf_bucket (input_key rt job_id) = None ∧
    s3 w !! (pdf_bucket, input_key rt job_id) = None ∧
    e = ClientError
          "An error occurred (404) when calling the HeadObject operation: Not Found")) →
  ∃ w1,
    handler rt cfg fl event w = (Raised e, w1) ∧
    trace w1 = trace w ++
      [s3_download pdf_bucket (input_key rt job_id) (local_pdf rt job_id) false] ∧
    s3 w1 = s3 w ∧ fs w1 = fs w ∧ bus w1 = bus w ∧
    logs w1 = logs w ++
      [ (INFO, msg_received event);
        (INFO, msg_downloading pdf_bucket (input_key rt job_id));
        (ERROR, msg_download_failed e);
        (ERROR, msg_error (Some job_id) e) ].
Proof.
  intros Hjob Htrue Hb Hne Hfail. eexists. split.
  - rewrite (handler_decoded _ _ _ _ job_id) by done.
    unfold try_except at 1, run_job.
    rewrite (proj2 (env_truthy_true _)), Hb by eauto. simpl.
    unfold mbind at 1 2, M_bind at 1 2, log, try_except, download_file. simpl.
    destruct Hfail as [Hd|(Hd & Hs3 & ->)]; rewrite Hd, ?Hs3; simpl; reflexivity.
  - simpl. split_and!; try done. by flatten.
Qed.

Lemma download_failure_aborts_witness :
  ∃ w1,
    handler Demo.rt Demo.cfg Cases.download_fails Demo.event Demo.w0
    = (Raised Cases.denied, w1) ∧
    trace w1 = trace Demo.w0 ++
      [s3_download "docs" (input_key Demo.rt (JStr "abc123"))
         (local_pdf Demo.rt (JStr "abc123")) false] ∧
    s3 w1 = s3 Demo.w0 ∧ fs w1 = fs Demo.w0 ∧ bus w1 = bus Demo.w0 ∧
    logs w1 = logs Demo.w0 ++
      [ (INFO, msg_received Demo.event);
        (INFO, msg_downloading "docs" (input_key Demo.rt (JStr "abc123")));
        (ERROR, msg_download_failed Cases.denied);
        (ERROR, msg_error (Some (JStr "abc123")) Cases.denied) ].
Proof.
  apply (download_failure_aborts Demo.rt Demo.cfg Cases.download_fails Demo.event
           (JStr "abc123") "docs" Cases.denied Demo.w0).
  - reflexivity.
  - reflexivity.
  - reflexivity.
  - discriminate.
  - left. reflexivity.
Defined.

(** X6.  If pdfium cannot open the downloaded file and raises [e], the
    handler raises [e]: no page is rendered, nothing is uploaded or
    published, and the downloaded PDF stays on the local disk. *)
Theorem corrupt_document_aborts rt cfg fl event job_id pdf_bucket body e w :
  job_id_of event = inr job_id → py_truthy job_id = true →
  S3_BUCKET_PDFS cfg = Some pdf_bucket → pdf_bucket ≠ "" →
  f_download fl pdf_bucket (input_key rt job_id) = None →
  s3 w !! (pdf_bucket, input_key rt job_id) = Some body →
  pdf_open rt body = inl e →
  ∃ w1,
    handler rt cfg fl event w = (Raised e, w1) ∧
    trace w1 = trace w ++
      [ s3_download pdf_bucket (input_key rt job_id) (local_pdf rt job_id) true;
        pdfium_open (local_pdf rt job_id) false ] ∧
    s3 w1 = s3 w ∧ bus w1 = bus w ∧
    fs w1 = <[local_pdf rt job_id := body]> (fs w).
Proof.
  intros Hjob Htrue Hb Hne Hd Hs3 Hopen. eexists.
  split; [by apply (handler_open_fails _ _ _ _ job_id pdf_bucket body e)|].
  simpl. split_and!; try done. by flatten.
Qed.

Lemma corrupt_document_aborts_witness :
  ∃ w1,
    handler Demo.rt Demo.cfg Demo.no_faults Demo.event Cases.w_corrupt
    = (Raised Cases.corrupt, w1) ∧
    trace w1 = trace Cases.w_corrupt ++
      [ s3_download "docs" (input_key Demo.rt (JStr "abc123"))
          (local_pdf Demo.rt (JStr "abc123")) true;
        pdfium_open (local_pdf Demo.rt (JStr "abc123")) false ] ∧
    s3 w1 = s3 Cases.w_corrupt ∧ bus w1 = bus Cases.w_corrupt ∧
    fs w1 = <[local_pdf Demo.rt (JStr "abc123") := "not a PDF"]> (fs Cases.w_corrupt).
Proof.
  apply (corrupt_document_aborts Demo.rt Demo.cfg Demo.no_faults Demo.event
           (JStr "abc123") "docs" "not a PDF" Cases.corrupt Cases.w_corrupt).
  - reflexivity.
  - reflexivity.
  - reflexivity.
  - discriminate.
  - reflexivity.
  - reflexivity.
  - reflexivity.
Defined.

(** X7.  If the page after [pre] cannot be rendered and [render] raises
    [e], the pages of [pre] having gone through: the handler raises [e];
    the failed rendering is the last call, so no image of that page is
    saved or uploaded and no later page is touched; the images of the pages
    of [pre] are in the bucket and nothing is published. *)
Theorem render_failure_aborts rt cfg fl event job_id pdf_bucket body pre p post imgs e w :
  job_id_of event = inr job_id → py_truthy job_id = true →
  opens rt cfg fl w job_id pdf_bucket body (pre ++ p :: post) →
  pages_ok rt fl job_id pdf_bucket 0 pre imgs →
  render rt p 2 = inl e →
  ∃ w1,
    handler rt cfg fl event w = (Raised e, w1) ∧
    trace w1 = trace w ++
      [ s3_download pdf_bucket (input_key rt job_id) (local_pdf rt job_id) true;
        pdfium_open (local_pdf rt job_id) true ] ++
      pages_events rt job_id pdf_bucket 0 (length pre) ++
      [ page_render (length pre) 2 false ] ∧
    s3 w1 = store_pages rt job_id pdf_bucket 0 imgs (s3 w) ∧
    bus w1 = bus w.
Proof.
  intros Hjob Htrue Hopens Hok Hr. eexists. split.
  - eapply handler_loop_raises; [done..|]. by apply process_pages_render_fails.
  - simpl. rewrite (pages_ok_length _ _ _ _ _ _ _ Hok). split_and!; try done. by flatten.
Qed.

Lemma render_failure_aborts_witness :
  ∃ w1,
    handler Cases.rt_bad_page Demo.cfg Demo.no_faults Demo.event Demo.w0
    = (Raised Cases.bad_page, w1) ∧
    trace w1 = trace Demo.w0 ++
      [ s3_download "docs" (input_key Cases.rt_bad_page (JStr "abc123"))
          (local_pdf Cases.rt_bad_page (JStr "abc123")) true;
        pdfium_open (local_pdf Cases.rt_bad_page (JStr "abc123")) true ] ++
      pages_events Cases.rt_bad_page (JStr "abc123") "docs" 0 (length ["first"]) ++
      [ page_render (length ["first"]) 2 false ] ∧
    s3 w1 = store_pages Cases.rt_bad_page (JStr "abc123") "docs" 0 ["PNG first x2"]
              (s3 Demo.w0) ∧
    bus w1 = bus Demo.w0.
Proof.
  apply (render_failure_aborts Cases.rt_bad_page Demo.cfg Demo.no_faults Demo.event
           (JStr "abc123") "docs" Demo.three_pages ["first"] "second" ["third"]
           ["PNG first x2"] Cases.bad_page Demo.w0).
  - reflexivity.
  - reflexivity.
  - unfold opens. split_and!; [reflexivity|discriminate|reflexivity..].
  - simpl. split_and!; reflexivity.
  - reflexivity.
Defined.

(** X8.  If saving the image of the page after [pre] raises [e]: the
    handler raises [e]; the failed save is the last call, so that page is
    not uploaded; the images of the pages of [pre] are in the bucket and
    nothing is published. *)
Theorem save_failure_aborts rt cfg fl event job_id pdf_bucket body pre p post imgs img e w :
  job_id_of event = inr job_id → py_truthy job_id = true →
  opens rt cfg fl w job_id pdf_bucket body (pre ++ p :: post) →
  pages_ok rt fl job_id pdf_bucket 0 pre imgs →
  render rt p 2 = inr img →
  f_save fl (local_img rt job_id (length pre)) = Some e →
  ∃ w1,
    handler rt cfg fl event w = (Raised e, w1) ∧
    trace w1 = trace w ++
      [ s3_download pdf_bucket (input_key rt job_id) (local_pdf rt job_id) true;
        pdfium_open (local_pdf rt job_id) true ] ++
      pages_events rt job_id pdf_bucket 0 (length pre) ++
      [ page_render (length pre) 2 true;
        img_save (local_img rt job_id (length pre)) false ] ∧
    s3 w1 = store_pages rt job_id pdf_bucket 0 imgs (s3 w) ∧
    bus w1 = bus w.
Proof.
  intros Hjob Htrue Hopens Hok Hr Hs. eexists. split.
  - eapply handler_loop_raises; [done..|]. by eapply process_pages_save_fails.
  - simpl. rewrite (pages_ok_length _ _ _ _ _ _ _ Hok). split_and!; try done. by flatten.
Qed.

Lemma save_failure_aborts_witness :
  ∃ w1,
    handler Demo.rt Demo.cfg Cases.second_save_fails Demo.event Demo.w0
    = (Raised Cases.disk_full, w1) ∧
    trace w1 = trace Demo.w0 ++
      [ s3_download "docs" (input_key Demo.rt (JStr "abc123"))
          (local_pdf Demo.rt (JStr "abc123")) true;
        pdfium_open (local_pdf Demo.rt (JStr "abc123")) true ] ++
      pages_events Demo.rt (JStr "abc123") "docs" 0 (length ["first"]) ++
      [ page_render (length ["first"]) 2 true;
        img_save (local_img Demo.rt (JStr "abc123") (length ["first"])) false ] ∧
    s3 w1 = store_pages Demo.rt (JStr "abc123") "docs" 0 ["PNG first x2"] (s3 Demo.w0) ∧
    bus w1 = bus Demo.w0.
Proof.
  apply (save_failure_aborts Demo.rt Demo.cfg Cases.second_save_fails Demo.event
           (JStr "abc123") "docs" Demo.three_pages ["first"] "second" ["third"]
           ["PNG first x2"] "PNG second x2" Cases.disk_full Demo.w0).
  - reflexivity.
  - reflexivity.
  - unfold opens. split_and!; [reflexivity|discriminate|reflexivity..].
  - simpl. split_and!; reflexivity.
  - reflexivity.
  - reflexivity.
Defined.

(** X9.  If every page went through and [put_events] raises [e]: the
    handler raises [e] and returns no dict, although every image is in the
    bucket; nothing is on the bus, the failed [put_events] is the last call
    and the local PDF is not removed. *)
Theorem publish_failure_aborts rt cfg fl event job_id pdf_bucket body pdf imgs e w :
  job_id_of event = inr job_id → py_truthy job_id = true →
  opens rt cfg fl w job_id pdf_bucket body pdf →
  pages_ok rt fl job_id pdf_bucket 0 pdf imgs →
  env_truthy (EVENT_BUS_NAME cfg) = true →
  f_publish fl = Some e →
  ∃ w1,
    handler rt cfg fl event w = (Raised e, w1) ∧
    uploads (trace w1) = uploads (trace w) ++
      ((λ k, (pdf_bucket, output_key rt job_id k)) <$> seq 0 (length pdf)) ∧
    s3 w1 = store_pages rt job_id pdf_bucket 0 imgs (s3 w) ∧
    bus w1 = bus w ∧
    last (trace w1) =
      Some (put_events_call
              (images_generated rt job_id (length pdf) (default "" (EVENT_BUS_NAME cfg)))
              false) ∧
    fs w1 !! local_pdf rt job_id = Some body.
Proof.
  intros Hjob Htrue Hopens Hok Hbus Hpub.
  pose proof (pages_ok_length _ _ _ _ _ _ _ Hok) as Hlen.
  eexists. split.
  - rewrite (handler_decoded _ _ _ _ job_id) by done. unfold try_except.
    rewrite (run_job_opened _ _ _ _ pdf_bucket body pdf) by done.
    erewrite bind_done; [|by apply process_pages_ok].
    rewrite complete_eq. simpl. rewrite Hbus, Hpub. reflexivity.
  - simpl. split_and!.
    + rewrite !uploads_app, uploads_pages_events, Hlen. simpl.
      by rewrite !(right_id_L [] (++)).
    + done.
    + done.
    + by rewrite last_snoc.
    + by rewrite sweep_lookup_pdf, lookup_insert_eq.
Qed.

Lemma publish_failure_aborts_witness :
  ∃ w1,
    handler Demo.rt Demo.cfg Cases.publish_fails Demo.event Demo.w0
    = (Raised Cases.bus_down, w1) ∧
    uploads (trace w1) = uploads (trace Demo.w0) ++
      ((λ k, ("docs", output_key Demo.rt (JStr "abc123") k))
         <$> seq 0 (length ["first"; "second"; "third"])) ∧
    s3 w1 = store_pages Demo.rt (JStr "abc123") "docs" 0
              ["PNG first x2"; "PNG second x2"; "PNG third x2"] (s3 Demo.w0) ∧
    bus w1 = bus Demo.w0 ∧
    last (trace w1) =
      Some (put_events_call
              (images_generated Demo.rt (JStr "abc123")
                 (length ["first"; "second"; "third"])
                 (default "" (EVENT_BUS_NAME Demo.cfg)))
              false) ∧
    fs w1 !! local_pdf Demo.rt (JStr "abc123") = Some Demo.three_pages.
Proof.
  apply (publish_failure_aborts Demo.rt Demo.cfg Cases.publish_fails Demo.event
           (JStr "abc123") "docs" Demo.three_pages ["first"; "second"; "third"]
           ["PNG first x2"; "PNG second x2"; "PNG third x2"] Cases.bus_down Demo.w0).
  - reflexivity.
  - reflexivity.
  - unfold opens. split_and!; [reflexivity|discriminate|reflexivity..].
  - simpl. split_and!; reflexivity.
  - reflexivity.
  - reflexivity.
Defined.

(** X10.  Once the source is downloaded, any failure of the run leaves the
    downloaded PDF on the local disk: its removal is on the success path
    only. *)
Theorem failure_leaves_local_pdf rt cfg fl event job_id pdf_bucket body e w w1 :
  job_id_of event = inr job_id → py_truthy job_id = true →
  S3_BUCKET_PDFS cfg = Some pdf_bucket → pdf_bucket ≠ "" →
  f_download fl pdf_bucket (input_key rt job_id) = None →
  s3 w !! (pdf_bucket, input_key rt job_id) = Some body →
  handler rt cfg fl event w = (Raised e, w1) →
  fs w1 !! local_pdf rt job_id = Some body.
Proof.
  intros Hjob Htrue Hb Hne Hd Hs3.
  destruct (pdf_open rt body) as [e'|pdf] eqn:Hopen.
  { rewrite (handler_open_fails _ _ _ _ job_id pdf_bucket body e') by done.
    intros [= _ <-]. simpl. apply lookup_insert_eq. }
  assert (opens rt cfg fl w job_id pdf_bucket body pdf) as Hopens
    by (unfold opens; by split_and!).
  intros (w2 & Hrun & _ & -> & _)%(handler_run _ _ _ _ job_id); [|done..].
  rewrite (run_job_opened _ _ _ _ pdf_bucket body pdf) in Hrun by done.
  assert (∀ w3 res,
    process_pages rt fl job_id pdf_bucket 0 pdf []
      (opened rt job_id pdf_bucket body pdf (add_log INFO (msg_received event) w))
    = (res, w3) → fs w3 !! local_pdf rt job_id = Some body) as Hloop.
  { intros w3 res (_ & _ & _ & _ & Hfs)%process_pages_any.
    rewrite Hfs by (intros j; apply local_pdf_ne_img). simpl. apply lookup_insert_eq. }
  apply bind_inv in Hrun as [(keys & w3 & Hpages & Hdone)|(e' & Hpages & _)].
  - apply complete_any in Hdone as (_ & _ & Hraised & _).
    destruct (Hraised e eq_refl) as [-> _]. by eapply Hloop.
  - by eapply Hloop.
Qed.

Lemma failure_leaves_local_pdf_witness :
  fs Cases.w_failed !! local_pdf Demo.rt (JStr "abc123") = Some Demo.three_pages.
Proof.
  apply (failure_leaves_local_pdf Demo.rt Demo.cfg Demo.second_upload_fails Demo.event
           (JStr "abc123") "docs" Demo.three_pages Demo.throttled Demo.w0).
  - reflexivity.
  - reflexivity.
  - reflexivity.
  - discriminate.
  - reflexivity.
  - reflexivity.
  - vm_compute. reflexivity.
Defined.

(** ** The calls a run makes *)

Section Footprint.
Context (rt : runtime) (cfg : config) (fl : faults) (job_id : json) (pdf_bucket : string).

Local Abbreviation mine := (Forall (job_call rt cfg job_id pdf_bucket)).

Lemma mine_nil : mine [].
Proof. constructor. Qed.

Lemma mine_app t1 t2 : mine t1 → mine t2 → mine (t1 ++ t2).
Proof. intros. by apply Forall_app_2. Qed.

Ltac all_mine := rewrite ?Forall_cons, ?Forall_nil; simpl; split_and?; eauto.

Lemma mine_page_events i : mine (page_events rt job_id pdf_bucket i).
Proof. unfold page_events. all_mine. Qed.

Lemma mine_pages_trace i pages : mine (pages_trace rt fl job_id pdf_bucket i pages).
Proof.
  revert i. induction pages as [|p pages IH]; intros i; simpl; [constructor|].
  destruct (render rt p 2); [by all_mine|].
  destruct (f_save fl (local_img rt job_id i)); [by all_mine|].
  destruct (f_upload fl pdf_bucket (output_key rt job_id i)).
  - by all_mine.
  - apply (mine_app (page_events rt job_id pdf_bucket i)); [apply mine_page_events|apply IH].
Qed.

Ltac one_call c :=
  apply (tracks_call _ mine_nil _ c);
  [ intros ?; by all_mine
  | intros ? ? ?;
    unfold download_file, PdfDocument, put_events, remove_if_exists;
    repeat case_match; intros [= <- <-];
    first [ by left | right; by eexists | right; by exists true ] ].

Lemma footprint_run_job :
  S3_BUCKET_PDFS cfg = Some pdf_bucket →
  tracks mine (run_job rt cfg fl job_id).
Proof.
  intros Hb. unfold run_job, complete. rewrite Hb. simpl.
  destruct (negb _); [by apply tracks_raise, mine_nil|].
  repeat first
    [ apply (tracks_bind _ mine_app); [|intros ?]
    | apply (tracks_try _ mine_app); [|intros ?]
    | apply (tracks_log _ mine_nil)
    | apply (tracks_ret _ mine_nil)
    | apply (tracks_raise _ mine_nil)
    | case_match ].
  - one_call (s3_download pdf_bucket (input_key rt job_id) (local_pdf rt job_id)).
  - one_call (pdfium_open (local_pdf rt job_id)).
  - intros w res w1 (Ht & _)%process_pages_trace.
    eexists. split; [done|]. apply mine_pages_trace.
  - match goal with
    | |- tracks _ (put_events _ ?entry) => one_call (put_events_call entry)
    end.
  - one_call (λ _ : bool, os_remove (local_pdf rt job_id)).
Qed.
End Footprint.

(** X11.  Whatever happens in a run for a job, every call made is one of
    that job: the source is the only object downloaded, pages are rendered
    at scale 2, only the job's scratch images are saved, uploaded (to the
    configured bucket, each under the key of its page) and removed, the
    local PDF is the only other file removed, and only the job's
    [ImagesGenerated] entry is sent to the configured bus. *)
Theorem calls_stay_within_the_job rt cfg fl event job_id pdf_bucket w res w1 :
  job_id_of event = inr job_id → py_truthy job_id = true →
  S3_BUCKET_PDFS cfg = Some pdf_bucket →
  handler rt cfg fl event w = (res, w1) →
  ∃ delta, trace w1 = trace w ++ delta ∧ Forall (job_call rt cfg job_id pdf_bucket) delta.
Proof.
  intros Hjob Htrue Hb (w2 & Hrun & _ & _ & _ & Ht)%(handler_run _ _ _ _ job_id); [|done..].
  rewrite Ht. by apply (footprint_run_job _ _ _ _ pdf_bucket Hb) in Hrun.
Qed.

Lemma calls_stay_within_the_job_witness :
  ∃ delta, trace Cases.w_failed = trace Demo.w0 ++ delta ∧
           Forall (job_call Demo.rt Demo.cfg (JStr "abc123") "docs") delta.
Proof.
  apply (calls_stay_within_the_job Demo.rt Demo.cfg Demo.second_upload_fails Demo.event
           (JStr "abc123") "docs" Demo.w0 (Raised Demo.throttled)).
  - reflexivity.
  - reflexivity.
  - reflexivity.
  - vm_compute. reflexivity.
Defined.

(** X12.  An event is on the bus after a run only if the handler returned
    its dict, and then it is the one entry of that job with the page count
    the dict reports: a run that raises, or returns [None], publishes
    nothing. *)
Theorem event_published_only_on_success rt cfg fl event w res w1 :
  handler rt cfg fl event w = (res, w1) →
  bus w1 = bus w ∨
  ∃ r bus_name,
    res = Done (RDict r) ∧ EVENT_BUS_NAME cfg = Some bus_name ∧ bus_name ≠ "" ∧
    bus w1 = bus w ++ [images_generated rt (ret_jobId r) (ret_pages r) bus_name].
Proof.
  intros Hrun. destruct res as [v|e].
  - pose proof Hrun as Hinv.
    apply handler_done_inv in Hinv
      as [(j & _ & _ & _ & (_ & _ & Hbus & _))
         |(j & b & body & pdf & imgs & Hj & Ht & Hopens & Hok & Hpub)]; [by left|].
    rewrite (handler_ok _ _ _ _ j b body pdf imgs) in Hrun by done.
    injection Hrun as <- <-. simpl. unfold completion.
    destruct (env_truthy (EVENT_BUS_NAME cfg)) eqn:Hbus.
    + apply env_truthy_true in Hbus as (bus_name & Hname & Hne). right.
      eexists _, bus_name. rewrite Hname. by split_and!.
    + left. by rewrite (right_id_L [] (++)).
  - left. destruct (job_id_of event) as [e'|j] eqn:Hjob.
    { rewrite (handler_no_dict _ _ _ _ e') in Hrun by done. by injection Hrun as _ <-. }
    destruct (py_truthy j) eqn:Htrue.
    + destruct (handler_run _ _ _ _ j _ _ _ Hjob Htrue Hrun)
        as (w2 & Hrun2 & _ & _ & Hbus1 & _).
      rewrite Hbus1.
      apply run_job_cases in Hrun2 as [(_ & Hbus & _)|(b & body & pdf & imgs & _ & _ & Hc)];
        [done|].
      apply complete_any in Hc as (_ & _ & Hraised & _).
      by destruct (Hraised e eq_refl) as [_ ->].
    + rewrite (handler_no_job _ _ _ _ j) in Hrun by done.
      destruct (dict_contains "Records" event); by injection Hrun as _ <-.
Qed.

Lemma event_published_only_on_success_witness :
  bus Cases.w_failed = bus Demo.w0 ∨
  ∃ r bus_name,
    Raised Demo.throttled = Done (RDict r) ∧ EVENT_BUS_NAME Demo.cfg = Some bus_name ∧
    bus_name ≠ "" ∧
    bus Cases.w_failed
    = bus Demo.w0 ++ [images_generated Demo.rt (ret_jobId r) (ret_pages r) bus_name].
Proof.
  apply (event_published_only_on_success Demo.rt Demo.cfg Demo.second_upload_fails
           Demo.event Demo.w0).
  vm_compute. reflexivity.
Defined.

(** X13.  When the handler returns its dict, the dict describes the run:
    its [jobId] is the identifier decoded from the event, its [status] is
    ["success"], and its [pages] is at once the number of pages of the
    source document, the number of uploads made, and the page count of the
    entry published. *)
Theorem returned_dict_describes_run rt cfg fl event w r w1 :
  handler rt cfg fl event w = (Done (RDict r), w1) →
  job_id_of event = inr (ret_jobId r) ∧
  ret_status r = "success" ∧
  (∃ pdf_bucket body pdf,
     S3_BUCKET_PDFS cfg = Some pdf_bucket ∧
     s3 w !! (pdf_bucket, input_key rt (ret_jobId r)) = Some body ∧
     pdf_open rt body = inr pdf ∧
     ret_pages r = length pdf ∧
     uploads (trace w1) = uploads (trace w) ++
       ((λ k, (pdf_bucket, output_key rt (ret_jobId r) k)) <$> seq 0 (ret_pages r))) ∧
  bus w1 = bus w ++ completion rt cfg (ret_jobId r) (ret_pages r).
Proof.
  intros Hrun. pose proof Hrun as Hinv.
  apply handler_done_inv in Hinv
    as [(j & _ & _ & [=] & _)|(j & b & body & pdf & imgs & Hj & Ht & Hopens & Hok & Hpub)].
  rewrite (handler_ok _ _ _ _ j b body pdf imgs) in Hrun by done.
  injection Hrun as <- <-. unfold finished.
  cbn [trace bus ret_jobId ret_pages ret_status].
  destruct Hopens as (Hb & _ & _ & Hs3 & Hopen).
  split_and!; [done..| |done].
  exists b, body, pdf. split_and!; [done..|].
  rewrite !uploads_app, uploads_pages_events, uploads_completion. simpl.
  by rewrite (right_id_L [] (++)).
Qed.

Lemma returned_dict_describes_run_witness :
  job_id_of Demo.event = inr (JStr "abc123") ∧
  "success" = "success" ∧
  (∃ pdf_bucket body pdf,
     S3_BUCKET_PDFS Demo.cfg = Some pdf_bucket ∧
     s3 Demo.w0 !! (pdf_bucket, input_key Demo.rt (JStr "abc123")) = Some body ∧
     pdf_open Demo.rt body = inr pdf ∧
     3 = length pdf ∧
     uploads (trace Demo.w1) = uploads (trace Demo.w0) ++
       ((λ k, (pdf_bucket, output_key Demo.rt (JStr "abc123") k)) <$> seq 0 3)) ∧
  bus Demo.w1 = bus Demo.w0 ++ completion Demo.rt Demo.cfg (JStr "abc123") 3.
Proof.
  apply (returned_dict_describes_run Demo.rt Demo.cfg Demo.no_faults Demo.event Demo.w0
           {| ret_jobId := JStr "abc123"; ret_pages := 3; ret_status := "success" |}).
  vm_compute. reflexivity.
Defined.

(** ** Decoding and logging *)

(** X14.  The handler returns [None] exactly for an event without job
    identifier ([detail] absent or a dict, [jobId] absent or false as a
    truth value) that has a [Records] key, whatever the configuration and
    the faults. *)
Theorem returns_none_iff_legacy rt cfg fl event w :
  fst (handler rt cfg fl event w) = Done RNone ↔
  ∃ job_id, job_id_of event = inr job_id ∧ py_truthy job_id = false ∧
            dict_contains "Records" event = true.
Proof.
  destruct (job_id_of event) as [e|j] eqn:Hjob.
  { rewrite (handler_no_dict _ _ _ _ e) by done. simpl.
    split; [done|]. by intros (? & [=] & _). }
  destruct (py_truthy j) eqn:Htrue.
  - split.
    + destruct (handler rt cfg fl event w) as [res w1] eqn:Hrun. simpl. intros ->.
      pose proof Hrun as Hinv.
      apply handler_done_inv in Hinv
        as [(j' & Hj' & Hf & _)|(j' & b & body & pdf & imgs & Hj' & ? & ? & ? & ?)].
      * congruence.
      * by rewrite (handler_ok _ _ _ _ j' b body pdf imgs) in Hrun.
    + intros (j' & [= <-] & ? & _). congruence.
  - rewrite (handler_no_job _ _ _ _ j) by done.
    destruct (dict_contains "Records" event); simpl.
    + split; [|done]. intros _. by exists j.
    + split; [done|]. by intros (? & _ & _ & ?).
Qed.

Lemma returns_none_iff_legacy_witness :
  fst (handler Demo.rt Demo.cfg_no_bucket Cases.publish_fails Demo.s3_event Demo.w0)
  = Done RNone.
Proof.
  apply (proj2 (returns_none_iff_legacy Demo.rt Demo.cfg_no_bucket Cases.publish_fails
                  Demo.s3_event Demo.w0)).
  exists JNull. split_and!; reflexivity.
Defined.

(** X15.  An event that is not a dict, or whose [detail] is present and
    not a dict, makes the handler raise the [AttributeError] of the [get]
    that value lacks, before anything else is looked at: nothing is touched,
    and the failure is logged for the job ['unknown']. *)
Theorem not_a_dict_raises rt cfg fl event v w :
  not_dict v →
  (event = v ∨ ∃ kv, event = JObj kv ∧ assoc "detail" kv = Some v) →
  let e := AttributeError ("'" +:+ type_name v +:+ "' object has no attribute 'get'") in
  ∃ w1,
    handler rt cfg fl event w = (Raised e, w1) ∧
    quiet w w1 ∧
    last (logs w1) = Some (ERROR, msg_error None e).
Proof.
  intros Hv Hevent e.
  assert (job_id_of event = inl e) as Hjob.
  { unfold job_id_of. destruct Hevent as [->|(kv & -> & Hd)].
    - destruct v; try done. by destruct (Hv kv).
    - simpl. rewrite Hd. simpl. destruct v; try done. by destruct (Hv kv0). }
  eexists. split; [by apply handler_no_dict|].
  split; [done|]. simpl. by rewrite last_snoc.
Qed.

Lemma not_a_dict_raises_witness :
  ∃ w1,
    handler Demo.rt Demo.cfg Demo.no_faults Demo.string_detail_event Demo.w0
    = (Raised (AttributeError ("'" +:+ type_name (JStr "abc123") +:+
                               "' object has no attribute 'get'")), w1) ∧
    quiet Demo.w0 w1 ∧
    last (logs w1)
    = Some (ERROR, msg_error None
                     (AttributeError ("'" +:+ type_name (JStr "abc123") +:+
                                      "' object has no attribute 'get'"))).
Proof.
  apply (not_a_dict_raises Demo.rt Demo.cfg Demo.no_faults Demo.string_detail_event
           (JStr "abc123") Demo.w0).
  - intros kv. discriminate.
  - right. exists [("detail", JStr "abc123")]. split; reflexivity.
Defined.

(** X16.  Every run that raises ends its log with an [ERROR] record that
    carries the exception raised and the job identifier as far as line 20
    assigned it (so [None] for an event without [jobId]), and ['unknown']
    only if line 19 or 20 itself raised; a run that returns logs no [ERROR]
    record. *)
Theorem failure_is_logged rt cfg fl event w :
  (∀ e w1,
     handler rt cfg fl event w = (Raised e, w1) →
     last (logs w1) =
       Some (ERROR, msg_error (match job_id_of event with
                               | inr job_id => Some job_id
                               | inl _ => None
                               end) e)) ∧
  (∀ v w1,
     handler rt cfg fl event w = (Done v, w1) →
     ∃ new, logs w1 = logs w ++ new ∧ ∀ m, (ERROR, m) ∉ new).
Proof.
  split.
  - intros e w1. unfold handler, mbind, M_bind, log.
    destruct (job_id_of event) as [e'|j].
    + intros [= <- <-]. simpl. by rewrite last_snoc.
    + unfold try_except. destruct (dispatch rt cfg fl event j _) as [[v|e'] w2]; [done|].
      intros [= <- <-]. simpl. by rewrite last_snoc.
  - intros v w1 Hrun. pose proof Hrun as Hinv.
    apply handler_done_inv in Hinv
      as [(j & Hj & Hf & -> & _)|(j & b & body & pdf & imgs & Hj & Ht & Hopens & Hok & Hpub)].
    + rewrite (handler_no_job _ _ _ _ j) in Hrun by done.
      destruct (dict_contains "Records" event); [|done].
      injection Hrun as <-. eexists [_; _]. split; [simpl; by flatten|].
      intros m. by absent.
    + rewrite (handler_ok _ _ _ _ j b body pdf imgs) in Hrun by done.
      injection Hrun as <- <-. eexists. split; [reflexivity|].
      intros m. destruct (env_truthy (EVENT_BUS_NAME cfg)); by absent.
Qed.

Lemma failure_is_logged_witness :
  last (logs (snd (handler Demo.rt Demo.cfg Demo.no_faults Demo.empty_event Demo.w0)))
  = Some (ERROR, msg_error (Some JNull) InvalidTriggerPayload) ∧
  ∃ new, logs Demo.w1 = logs Demo.w0 ++ new ∧ ∀ m, (ERROR, m) ∉ new.
Proof.
  split.
  - apply (proj1 (failure_is_logged Demo.rt Demo.cfg Demo.no_faults Demo.empty_event
                    Demo.w0) InvalidTriggerPayload).
    vm_compute. reflexivity.
  - apply (proj2 (failure_is_logged Demo.rt Demo.cfg Demo.no_faults Demo.event Demo.w0)
             Demo.success).
    vm_compute. reflexivity.
Defined.

(** ** Names *)

(** X17.  The names derived from a job never collide: the pages of a job
    have pairwise different output keys and pairwise different scratch
    paths, no output key is the key of the source document, and no scratch
    image is the local PDF. *)
Theorem job_names_do_not_collide rt job_id n :
  NoDup (output_key rt job_id <$> seq 0 n) ∧
  NoDup (local_img rt job_id <$> seq 0 n) ∧
  (input_key rt job_id ∉ (output_key rt job_id <$> seq 0 n)) ∧
  (local_pdf rt job_id ∉ (local_img rt job_id <$> seq 0 n)).
Proof.
  split_and!.
  - apply NoDup_fmap_2; [|apply NoDup_seq]. intros i k. apply output_key_inj.
  - apply NoDup_fmap_2; [|apply NoDup_seq]. intros i k. apply local_img_inj.
  - intros (k & E & _)%list_elem_of_fmap. by destruct (input_key_ne_output rt job_id k).
  - intros (k & E & _)%list_elem_of_fmap. by destruct (local_pdf_ne_img rt job_id k).
Qed.

(** ** The order of the calls *)

(** X18.  In a run in which nothing goes wrong the calls are, in this
    order: the download, the opening of the file, then page by page the
    rendering, the save, the upload and the removal of the scratch image
    (so the image of a page is uploaded and removed before the next page is
    rendered), then [put_events] if a bus is configured, and last the
    removal of the local PDF. *)
Theorem successful_run_calls rt cfg fl event job_id pdf_bucket body pdf imgs w :
  job_id_of event = inr job_id → py_truthy job_id = true →
  opens rt cfg fl w job_id pdf_bucket body pdf →
  pages_ok rt fl job_id pdf_bucket 0 pdf imgs →
  (env_truthy (EVENT_BUS_NAME cfg) = true → f_publish fl = None) →
  trace (snd (handler rt cfg fl event w)) = trace w ++
    [ s3_download pdf_bucket (input_key rt job_id) (local_pdf rt job_id) true;
      pdfium_open (local_pdf rt job_id) true ] ++
    mjoin ((λ i, [ page_render i 2 true;
                   img_save (local_img rt job_id i) true;
                   s3_upload (local_img rt job_id i) pdf_bucket (output_key rt job_id i) true;
                   os_remove (local_img rt job_id i) ]) <$> seq 0 (length pdf)) ++
    (if env_truthy (EVENT_BUS_NAME cfg)
     then [ put_events_call
              (images_generated rt job_id (length pdf) (default "" (EVENT_BUS_NAME cfg)))
              true ]
     else []) ++
    [ os_remove (local_pdf rt job_id) ].
Proof.
  intros Hjob Htrue Hopens Hok Hpub.
  rewrite (handler_ok _ _ _ _ job_id pdf_bucket body pdf imgs) by done.
  unfold finished, completion. cbn [snd trace]. do 2 f_equal. f_equal.
  - generalize 0. induction (length pdf) as [|n IH]; intros i; simpl; [done|].
    by rewrite IH.
  - by destruct (env_truthy (EVENT_BUS_NAME cfg)).
Qed.

Lemma successful_run_calls_witness :
  trace (snd (handler Demo.rt Demo.cfg Demo.no_faults Demo.event Demo.w0)) = trace Demo.w0 ++
    [ s3_download "docs" (input_key Demo.rt (JStr "abc123"))
        (local_pdf Demo.rt (JStr "abc123")) true;
      pdfium_open (local_pdf Demo.rt (JStr "abc123")) true ] ++
    mjoin ((λ i, [ page_render i 2 true;
                   img_save (local_img Demo.rt (JStr "abc123") i) true;
                   s3_upload (local_img Demo.rt (JStr "abc123") i) "docs"
                     (output_key Demo.rt (JStr "abc123") i) true;
                   os_remove (local_img Demo.rt (JStr "abc123") i) ])
             <$> seq 0 (length ["first"; "second"; "third"])) ++
    (if env_truthy (EVENT_BUS_NAME Demo.cfg)
     then [ put_events_call
              (images_generated Demo.rt (JStr "abc123")
                 (length ["first"; "second"; "third"])
                 (default "" (EVENT_BUS_NAME Demo.cfg)))
              true ]
     else []) ++
    [ os_remove (local_pdf Demo.rt (JStr "abc123")) ].
Proof.
  apply (successful_run_calls Demo.rt Demo.cfg Demo.no_faults Demo.event (JStr "abc123")
           "docs" Demo.three_pages ["first"; "second"; "third"]
           ["PNG first x2"; "PNG second x2"; "PNG third x2"] Demo.w0).
  - reflexivity.
  - reflexivity.
  - unfold opens. split_and!; [reflexivity|discriminate|reflexivity..].
  - simpl. split_and!; reflexivity.
  - reflexivity.
Defined.
